(** * Win32Window: the message normaliser of the Windows shell

    A shallow embedding of [shell/platform/windows/win32_window.cc]:
    the window procedure, the message handler with its cross-message
    state (lead surrogate, pending key code, mouse-leave flag), and the
    create/destroy life cycle, followed by the properties established
    about them. *)

From Stdlib Require Import ZArith QArith List String Lia Bool.
From stdpp Require Import base option gmap.
Import ListNotations.

Local Open Scope Z_scope.

(** ** Machine integers and packed parameters *)

(** [HWND], pointers, [UINT], [WPARAM] (unsigned) and [LPARAM] (signed)
    are all carried by [Z]; a null handle or pointer is [0].  Conversions
    between widths are written out where the source performs them. *)

Definition to_uint32 (z : Z) : Z := z mod 2 ^ 32.

Definition to_int16 (z : Z) : Z :=
  let u := z mod 2 ^ 16 in if u <? 2 ^ 15 then u else u - 2 ^ 16.

Definition LOWORD (l : Z) : Z := Z.land l 0xffff.
Definition HIWORD (l : Z) : Z := Z.land (Z.shiftr l 16) 0xffff.
Definition GET_X_LPARAM (lp : Z) : Z := to_int16 (LOWORD lp).
Definition GET_Y_LPARAM (lp : Z) : Z := to_int16 (HIWORD lp).
Definition GET_XBUTTON_WPARAM (wp : Z) : Z := HIWORD wp.

(** Message numbers, virtual keys and mapping modes of the platform
    headers ([winuser.h]); [kWmDpiChangedBeforeParent] is the value of
    [WM_DPICHANGED_BEFOREPARENT]. *)

Definition WM_SIZE : Z := 0x0005.
Definition WM_FONTCHANGE : Z := 0x001D.
Definition WM_NCCREATE : Z := 0x0081.
Definition WM_KEYDOWN : Z := 0x0100.
Definition WM_KEYUP : Z := 0x0101.
Definition WM_CHAR : Z := 0x0102.
Definition WM_DEADCHAR : Z := 0x0103.
Definition WM_SYSKEYDOWN : Z := 0x0104.
Definition WM_SYSKEYUP : Z := 0x0105.
Definition WM_SYSCHAR : Z := 0x0106.
Definition WM_SYSDEADCHAR : Z := 0x0107.
Definition WM_UNICHAR : Z := 0x0109.
Definition WM_MOUSEMOVE : Z := 0x0200.
Definition WM_LBUTTONDOWN : Z := 0x0201.
Definition WM_LBUTTONUP : Z := 0x0202.
Definition WM_RBUTTONDOWN : Z := 0x0204.
Definition WM_RBUTTONUP : Z := 0x0205.
Definition WM_MBUTTONDOWN : Z := 0x0207.
Definition WM_MBUTTONUP : Z := 0x0208.
Definition WM_MOUSEWHEEL : Z := 0x020A.
Definition WM_XBUTTONDOWN : Z := 0x020B.
Definition WM_XBUTTONUP : Z := 0x020C.
Definition WM_MOUSELEAVE : Z := 0x02A3.
Definition kWmDpiChangedBeforeParent : Z := 0x02E2.

Definition UNICODE_NOCHAR : Z := 0xFFFF.
Definition VK_BACK : Z := 0x08.
Definition VK_SHIFT : Z := 0x10.
Definition VK_CONTROL : Z := 0x11.
Definition VK_MENU : Z := 0x12.
Definition MAPVK_VK_TO_CHAR : Z := 2.
Definition MAPVK_VSC_TO_VK_EX : Z := 3.
Definition WHEEL_DELTA : positive := 120.
Definition TRUE : Z := 1.

(** ** The window object *)

Record Win32Window := mkWin32Window {
  window_handle_ : Z;
  current_dpi_ : Z;
  current_width_ : Z;
  current_height_ : Z;
  tracking_mouse_leave_ : bool;
  keycode_for_char_message_ : Z;
  window_class_name_ : string
}.

Definition set_window_handle_ (h : Z) (w : Win32Window) : Win32Window :=
  mkWin32Window h (current_dpi_ w) (current_width_ w) (current_height_ w)
    (tracking_mouse_leave_ w) (keycode_for_char_message_ w)
    (window_class_name_ w).

Definition set_current_dpi_ (d : Z) (w : Win32Window) : Win32Window :=
  mkWin32Window (window_handle_ w) d (current_width_ w) (current_height_ w)
    (tracking_mouse_leave_ w) (keycode_for_char_message_ w)
    (window_class_name_ w).

Definition set_current_width_ (x : Z) (w : Win32Window) : Win32Window :=
  mkWin32Window (window_handle_ w) (current_dpi_ w) x (current_height_ w)
    (tracking_mouse_leave_ w) (keycode_for_char_message_ w)
    (window_class_name_ w).

Definition set_current_height_ (y : Z) (w : Win32Window) : Win32Window :=
  mkWin32Window (window_handle_ w) (current_dpi_ w) (current_width_ w) y
    (tracking_mouse_leave_ w) (keycode_for_char_message_ w)
    (window_class_name_ w).

Definition set_tracking_mouse_leave_ (b : bool) (w : Win32Window)
  : Win32Window :=
  mkWin32Window (window_handle_ w) (current_dpi_ w) (current_width_ w)
    (current_height_ w) b (keycode_for_char_message_ w)
    (window_class_name_ w).

Definition set_keycode_for_char_message_ (k : Z) (w : Win32Window)
  : Win32Window :=
  mkWin32Window (window_handle_ w) (current_dpi_ w) (current_width_ w)
    (current_height_ w) (tracking_mouse_leave_ w) k (window_class_name_ w).

Definition set_window_class_name_ (n : string) (w : Win32Window)
  : Win32Window :=
  mkWin32Window (window_handle_ w) (current_dpi_ w) (current_width_ w)
    (current_height_ w) (tracking_mouse_leave_ w)
    (keycode_for_char_message_ w) n.

(** Modelled from the spec: the header declaring
    [keycode_for_char_message_] is missing; the spec calls the field a
    "small integer, zero means none".  The assignment from the
    pointer-sized [wparam] is taken to keep the low 32 bits. *)
Definition keycode_of_wparam (wparam : Z) : Z := to_uint32 wparam.

(** ** Effects: engine hooks and native calls *)

(** The virtual hooks a consumer overrides.  [OnScroll] receives doubles;
    the quotient by [WHEEL_DELTA] is kept as an exact rational. *)
Inductive event : Type :=
| OnDpiScale (dpi : Z)
| OnResize (width height : Z)
| OnFontChange
| OnPointerMove (x y : Z)
| OnPointerLeave
| OnPointerDown (x y button : Z)
| OnPointerUp (x y button : Z)
| OnScroll (delta_x delta_y : Q)
| OnChar (code_point : Z)
| OnKey (key scancode action character : Z).

(** The calls into the native windowing subsystem that change it. *)
Inductive native : Type :=
| TrackMouseEvent (hwndTrack : Z)
| SetCapture (hwnd : Z)
| ReleaseCapture
| DefWindowProc (hwnd message wparam lparam : Z)
| DestroyWindow (hwnd : Z)
| UnregisterClass (name : string)
| RegisterClass (name : string)
| CreateWindowEx (class_name title : string) (width height lpParam : Z)
| OutputDebugString (error : Z).

Inductive effect : Type :=
| Emit (e : event)
| Call (n : native).

(** The hooks invoked along a trace, in order. *)
Fixpoint emitted (t : list effect) : list event :=
  match t with
  | [] => []
  | Emit e :: t' => e :: emitted t'
  | Call _ :: t' => emitted t'
  end.

(** The native calls issued along a trace, in order. *)
Fixpoint called (t : list effect) : list native :=
  match t with
  | [] => []
  | Emit _ :: t' => called t'
  | Call n :: t' => n :: called t'
  end.

Definition is_OnChar (e : event) : bool :=
  match e with OnChar _ => true | _ => false end.

Definition is_OnKey (e : event) : bool :=
  match e with OnKey _ _ _ _ => true | _ => false end.

Definition is_OnPointerLeave (e : event) : bool :=
  match e with OnPointerLeave => true | _ => false end.

(** ** The handler monad

    A member function runs on the object it is invoked on and on the one
    function-local [static] of [MessageHandler], and leaves a trace. *)

Record HState := mkHState {
  lead_surrogate : Z;
  this : Win32Window
}.

Definition M (A : Type) : Type := HState -> A * HState * list effect.

#[export] Instance M_ret : MRet M := fun A a s => (a, s, []).

#[export] Instance M_bind : MBind M := fun A B k m s =>
  let '(a, s1, t1) := m s in
  let '(b, s2, t2) := k a s1 in
  (b, s2, t1 ++ t2).

Definition member {A} (f : Win32Window -> A) : M A :=
  fun s => (f (this s), s, []).

Definition assign (f : Win32Window -> Win32Window) : M unit :=
  fun s => (tt, mkHState (lead_surrogate s) (f (this s)), []).

Definition get_lead_surrogate : M Z :=
  fun s => (lead_surrogate s, s, []).

Definition set_lead_surrogate (v : Z) : M unit :=
  fun s => (tt, mkHState v (this s), []).

Definition emit (e : event) : M unit := fun s => (tt, s, [Emit e]).

Definition call (n : native) : M unit := fun s => (tt, s, [Call n]).

Definition when (b : bool) (m : M unit) : M unit :=
  if b then m else mret tt.

Definition result_of {A} (r : A * HState * list effect) : A := r.1.1.
Definition state_of {A} (r : A * HState * list effect) : HState := r.1.2.
Definition trace_of {A} (r : A * HState * list effect) : list effect := r.2.

(** ** Member functions *)

Section Handler.

(** The services of the native subsystem whose answers the handler
    consumes: the DPI query, the key-mapping service and the result of
    default message handling. *)
Variable GetDpiForHWND : Z -> Z.
Variable MapVirtualKey : Z -> Z -> Z.
Variable DefWindowProc_result : Z -> Z -> Z -> Z -> Z.

Definition TrackMouseLeaveEvent (hwnd : Z) : M unit :=
  tracking ← member tracking_mouse_leave_;
  when (negb tracking)
    (call (TrackMouseEvent hwnd);;
     assign (set_tracking_mouse_leave_ true)).

Definition HandleResize (width height : Z) : M unit :=
  assign (set_current_width_ width);;
  assign (set_current_height_ height);;
  emit (OnResize width height).

Definition Destroy : M unit :=
  handle ← member window_handle_;
  when (negb (handle =? 0))
    (call (DestroyWindow handle);;
     assign (set_window_handle_ 0));;
  name ← member window_class_name_;
  call (UnregisterClass name).

Definition RegisterWindowClass (title : string) : M string :=
  assign (set_window_class_name_ title);;
  call (RegisterClass title);;
  mret title.

(** The body of [case WM_DEADCHAR: case WM_SYSDEADCHAR: case WM_CHAR:
    case WM_SYSCHAR:].  The result is [None] when the case ends in
    [break], [Some r] when it returns [r] from inside the switch. *)
Definition case_char (message wparam lparam : Z) : M (option Z) :=
  let code_point := to_uint32 wparam in
  lead ← get_lead_surrogate;
  code_point ← (
    if Z.land code_point 0xFFFFFC00 =? 0xD800 then
      set_lead_surrogate code_point;;
      mret code_point
    else if negb (lead =? 0) && (Z.land code_point 0xFFFFFC00 =? 0xDC00)
    then
      let merged :=
        to_uint32 (0x10000 + Z.shiftl (Z.land lead 0x000003FF) 10
                   + Z.land code_point 0x3FF) in
      set_lead_surrogate 0;;
      mret merged
    else mret code_point);
  when (negb (wparam =? VK_BACK) && negb (message =? WM_DEADCHAR)
        && negb (message =? WM_SYSDEADCHAR))
    (emit (OnChar code_point));;
  keycode ← member keycode_for_char_message_;
  when (negb (keycode =? 0))
    (let scancode := Z.land (Z.shiftr lparam 16) 0xff in
     emit (OnKey keycode scancode WM_KEYDOWN code_point);;
     assign (set_keycode_for_char_message_ 0));;
  mret None.

(** The body of [case WM_KEYDOWN: case WM_SYSKEYDOWN: case WM_KEYUP:
    case WM_SYSKEYUP:]. *)
Definition case_key (message wparam lparam : Z) : M (option Z) :=
  let is_keydown_message :=
    (message =? WM_KEYDOWN) || (message =? WM_SYSKEYDOWN) in
  let character :=
    to_uint32 (MapVirtualKey (to_uint32 wparam) MAPVK_VK_TO_CHAR) in
  if (0 <? character) && is_keydown_message then
    assign (set_keycode_for_char_message_ (keycode_of_wparam wparam));;
    mret None
  else
    let keyCode := to_uint32 wparam in
    let scancode := Z.land (Z.shiftr lparam 16) 0xff in
    let keyCode :=
      if (keyCode =? VK_SHIFT) || (keyCode =? VK_MENU)
         || (keyCode =? VK_CONTROL)
      then to_uint32 (MapVirtualKey scancode MAPVK_VSC_TO_VK_EX)
      else keyCode in
    let action := if is_keydown_message then WM_KEYDOWN else WM_KEYUP in
    emit (OnKey keyCode scancode action 0);;
    mret None.

(** The bodies of the pointer-button cases. *)
Definition case_button_down (hwnd message wparam lparam : Z)
  : M (option Z) :=
  when (message =? WM_LBUTTONDOWN) (call (SetCapture hwnd));;
  let button_pressed :=
    if message =? WM_XBUTTONDOWN then GET_XBUTTON_WPARAM wparam
    else message in
  let xPos := GET_X_LPARAM lparam in
  let yPos := GET_Y_LPARAM lparam in
  emit (OnPointerDown xPos yPos button_pressed);;
  mret None.

Definition case_button_up (message wparam lparam : Z) : M (option Z) :=
  when (message =? WM_LBUTTONUP) (call ReleaseCapture);;
  let button_pressed :=
    if message =? WM_XBUTTONUP then GET_XBUTTON_WPARAM wparam
    else message in
  let xPos := GET_X_LPARAM lparam in
  let yPos := GET_Y_LPARAM lparam in
  emit (OnPointerUp xPos yPos button_pressed);;
  mret None.

(** The switch of [MessageHandler].  The handler is entered from
    [WndProc] only, with [this] the object stored in the user-data slot
    of [hwnd]; the local [window] read back from that slot is then
    [this] itself and is not null. *)
Definition message_switch (hwnd message wparam lparam : Z)
  : M (option Z) :=
  if message =? kWmDpiChangedBeforeParent then
    handle ← member window_handle_;
    assign (set_current_dpi_ (GetDpiForHWND handle));;
    dpi ← member current_dpi_;
    emit (OnDpiScale dpi);;
    mret (Some 0)
  else if message =? WM_SIZE then
    let width := LOWORD lparam in
    let height := HIWORD lparam in
    assign (set_current_width_ width);;
    assign (set_current_height_ height);;
    HandleResize width height;;
    mret None
  else if message =? WM_FONTCHANGE then
    emit OnFontChange;;
    mret None
  else if message =? WM_MOUSEMOVE then
    TrackMouseLeaveEvent hwnd;;
    let xPos := GET_X_LPARAM lparam in
    let yPos := GET_Y_LPARAM lparam in
    emit (OnPointerMove xPos yPos);;
    mret None
  else if message =? WM_MOUSELEAVE then
    emit OnPointerLeave;;
    assign (set_tracking_mouse_leave_ false);;
    mret None
  else if (message =? WM_LBUTTONDOWN) || (message =? WM_RBUTTONDOWN)
          || (message =? WM_MBUTTONDOWN) || (message =? WM_XBUTTONDOWN)
  then case_button_down hwnd message wparam lparam
  else if (message =? WM_LBUTTONUP) || (message =? WM_RBUTTONUP)
          || (message =? WM_MBUTTONUP) || (message =? WM_XBUTTONUP)
  then case_button_up message wparam lparam
  else if message =? WM_MOUSEWHEEL then
    emit (OnScroll 0%Q
            (Qopp (Qmake (to_int16 (HIWORD wparam)) WHEEL_DELTA)));;
    mret None
  else if message =? WM_UNICHAR then
    if wparam =? UNICODE_NOCHAR then mret (Some TRUE) else mret None
  else if (message =? WM_DEADCHAR) || (message =? WM_SYSDEADCHAR)
          || (message =? WM_CHAR) || (message =? WM_SYSCHAR)
  then case_char message wparam lparam
  else if (message =? WM_KEYDOWN) || (message =? WM_SYSKEYDOWN)
          || (message =? WM_KEYUP) || (message =? WM_SYSKEYUP)
  then case_key message wparam lparam
  else mret None.

Definition MessageHandler (hwnd message wparam lparam : Z) : M Z :=
  returned ← message_switch hwnd message wparam lparam;
  match returned with
  | Some r => mret r
  | None =>
      call (DefWindowProc hwnd message wparam lparam);;
      mret (DefWindowProc_result hwnd message wparam lparam)
  end.

(** Feeding a list of messages [(message, wparam, lparam)] for one
    handle to the handler, one after the other. *)
Fixpoint feed (hwnd : Z) (msgs : list (Z * Z * Z)) (s : HState)
  : HState * list effect :=
  match msgs with
  | [] => (s, [])
  | (message, wparam, lparam) :: rest =>
      let r := MessageHandler hwnd message wparam lparam s in
      let '(s', t') := feed hwnd rest (state_of r) in
      (s', trace_of r ++ t')
  end.

End Handler.

(** ** The process: native handles, their user-data slots, live objects *)

(** [MessageHandler]'s [static char32_t lead_surrogate] is one variable
    for the whole process; [userdata] is the [GWLP_USERDATA] slot of each
    native handle (absent reads as null); [objects] are the live
    [Win32Window] objects by address. *)
Record World := mkWorld {
  static_lead_surrogate : Z;
  userdata : gmap Z Z;
  objects : gmap Z Win32Window
}.

(** A step of the process fails ([None]) only when it dereferences an
    address that holds no live object. *)
Definition W (A : Type) : Type := World -> option (A * World * list effect).

#[export] Instance W_ret : MRet W := fun A a σ => Some (a, σ, []).

#[export] Instance W_bind : MBind W := fun A B k m σ =>
  match m σ with
  | None => None
  | Some (a, σ1, t1) =>
      match k a σ1 with
      | None => None
      | Some (b, σ2, t2) => Some (b, σ2, t1 ++ t2)
      end
  end.

(** The native side of [DestroyWindow]: the user-data slot belongs to
    the native window and disappears with it (the spec has the registry
    entry of a handle removed when its window is torn down). *)
Fixpoint released (t : list effect) (u : gmap Z Z) : gmap Z Z :=
  match t with
  | [] => u
  | Call (DestroyWindow h) :: t' => released t' (delete h u)
  | _ :: t' => released t' u
  end.

(** Running a member function on the object at address [p]. *)
Definition on_object {A} (p : Z) (m : M A) : W A := fun σ =>
  match objects σ !! p with
  | None => None
  | Some w =>
      let r := m (mkHState (static_lead_surrogate σ) w) in
      Some (result_of r,
            mkWorld (lead_surrogate (state_of r))
                    (released (trace_of r) (userdata σ))
                    (<[p := this (state_of r)]> (objects σ)),
            trace_of r)
  end.

Definition GetWindowLongPtr (hwnd : Z) : W Z := fun σ =>
  Some (default 0 (userdata σ !! hwnd), σ, []).

Definition SetWindowLongPtr (hwnd value : Z) : W unit := fun σ =>
  Some (tt, mkWorld (static_lead_surrogate σ)
                    (<[hwnd := value]> (userdata σ)) (objects σ), []).

Definition GetThisFromHandle (window : Z) : W Z := GetWindowLongPtr window.

Definition native_call (n : native) : W unit :=
  fun σ => Some (tt, σ, [Call n]).

(** The storage of the object at address [p] is given back. *)
Definition free_object (p : Z) : W unit := fun σ =>
  Some (tt, mkWorld (static_lead_surrogate σ) (userdata σ)
                    (delete p (objects σ)), []).

(** The outcome of the native creation request: it fails with an error
    code before any message, or it makes a handle and, inside the call,
    delivers messages to the window procedure for that handle: some
    before the creation message, the creation message itself (whose
    [CREATESTRUCT], at [cs], carries the creation parameter), and some
    after it. *)
Inductive creation : Type :=
| Failed (error : Z)
| Created (hwnd cs : Z) (before after : list (Z * Z * Z)).

Section Process.

Variable GetDpiForHWND : Z -> Z.
Variable MapVirtualKey : Z -> Z -> Z.
Variable DefWindowProc_result : Z -> Z -> Z -> Z -> Z.
Variable NarrowToWide : string -> string.

Definition DefaultProc (hwnd message wparam lparam : Z) : W Z :=
  native_call (DefWindowProc hwnd message wparam lparam);;
  mret (DefWindowProc_result hwnd message wparam lparam).

(** [lpCreateParams] is the field read through [lparam] when the
    message is [WM_NCCREATE]; it is not looked at otherwise. *)
Definition WndProc (window message wparam lparam lpCreateParams : Z)
  : W Z :=
  if message =? WM_NCCREATE then
    SetWindowLongPtr window lpCreateParams;;
    let that := lpCreateParams in
    on_object that (assign (set_window_handle_ window));;
    DefaultProc window message wparam lparam
  else
    that ← GetThisFromHandle window;
    if negb (that =? 0) then
      on_object that
        (MessageHandler GetDpiForHWND MapVirtualKey DefWindowProc_result
           window message wparam lparam)
    else DefaultProc window message wparam lparam.

(** The host delivering a list of messages to one handle. *)
Fixpoint deliver (window : Z) (msgs : list (Z * Z * Z)) : W unit :=
  match msgs with
  | [] => mret tt
  | (message, wparam, lparam) :: rest =>
      WndProc window message wparam lparam 0;;
      deliver window rest
  end.

(** The native creation request, with the re-entrant calls of the
    window procedure it makes. *)
Definition NativeCreateWindowEx (class_name title : string)
    (width height lpParam : Z) (c : creation) : W Z :=
  native_call (CreateWindowEx class_name title width height lpParam);;
  match c with
  | Failed _ => mret 0
  | Created hwnd cs before after =>
      deliver hwnd before;;
      WndProc hwnd WM_NCCREATE 0 cs lpParam;;
      deliver hwnd after;;
      mret hwnd
  end.

(** [InitializeChild] up to the creation request. *)
Definition InitializeChild_prologue (this_ : Z) (title : string)
  : W (string * string) :=
  on_object this_ Destroy;;
  let converted_title := NarrowToWide title in
  window_class ← on_object this_ (RegisterWindowClass converted_title);
  mret (window_class, converted_title).

Definition InitializeChild (this_ : Z) (title : string)
    (width height : Z) (c : creation) : W unit :=
  '(window_class, converted_title) ←
    InitializeChild_prologue this_ title;
  result ← NativeCreateWindowEx window_class converted_title
              width height this_ c;
  if result =? 0 then
    match c with
    | Failed error => native_call (OutputDebugString error)
    | Created _ _ _ _ => native_call (OutputDebugString 0)
    end
  else mret tt.

(** The destructor: [Destroy], then the object is gone. *)
Definition destructor (this_ : Z) : W unit :=
  on_object this_ Destroy;;
  free_object this_.

End Process.

(** ** Vocabulary of the statements *)

(** The ranges the spec speaks of. *)
Definition high_surrogate (c : Z) : Prop := 0xD800 <= c <= 0xDBFF.
Definition low_surrogate (c : Z) : Prop := 0xDC00 <= c <= 0xDFFF.

(** The standard UTF-16 pairing formula, without wrap-around. *)
Definition surrogate_pair (lead trail : Z) : Z :=
  0x10000 + Z.shiftl (Z.land lead 0x3FF) 10 + Z.land trail 0x3FF.

(** The four message subtypes of the character family. *)
Definition is_char_message (message : Z) : bool :=
  (message =? WM_DEADCHAR) || (message =? WM_SYSDEADCHAR)
  || (message =? WM_CHAR) || (message =? WM_SYSCHAR).

(** The code point a character message resolves to, given the lead
    surrogate pending when it arrives. *)
Definition resolved_code_point (lead wparam : Z) : Z :=
  let code_point := to_uint32 wparam in
  if Z.land code_point 0xFFFFFC00 =? 0xD800 then code_point
  else if negb (lead =? 0) && (Z.land code_point 0xFFFFFC00 =? 0xDC00)
  then surrogate_pair lead code_point
  else code_point.

(** The lead surrogate pending after a character message. *)
Definition next_lead_surrogate (lead wparam : Z) : Z :=
  let code_point := to_uint32 wparam in
  if Z.land code_point 0xFFFFFC00 =? 0xD800 then code_point
  else if negb (lead =? 0) && (Z.land code_point 0xFFFFFC00 =? 0xDC00)
  then 0
  else lead.

(** The guard of the text hook. *)
Definition char_is_text (message wparam : Z) : bool :=
  negb (wparam =? VK_BACK) && negb (message =? WM_DEADCHAR)
  && negb (message =? WM_SYSDEADCHAR).

Definition scancode_of (lparam : Z) : Z := Z.land (Z.shiftr lparam 16) 0xff.

(** The key code a raw key transition reports: a modifier is replaced by
    its left or right variant, found from the scancode. *)
Definition key_code_of (MapVirtualKey : Z -> Z -> Z) (wparam lparam : Z)
  : Z :=
  let keyCode := to_uint32 wparam in
  if (keyCode =? VK_SHIFT) || (keyCode =? VK_MENU) || (keyCode =? VK_CONTROL)
  then to_uint32 (MapVirtualKey (scancode_of lparam) MAPVK_VSC_TO_VK_EX)
  else keyCode.

(** Whether the key of a raw key transition maps to a character. *)
Definition produces_character (MapVirtualKey : Z -> Z -> Z) (wparam : Z)
  : bool :=
  0 <? to_uint32 (MapVirtualKey (to_uint32 wparam) MAPVK_VK_TO_CHAR).

(** A run of pointer moves, each with its own parameters. *)
Definition moves (params : list (Z * Z)) : list (Z * Z * Z) :=
  map (fun p => (WM_MOUSEMOVE, p.1, p.2)) params.

Definition is_TrackMouseEvent (n : native) : bool :=
  match n with TrackMouseEvent _ => true | _ => false end.

(** What a step of the process emits, and the process after it. *)
Definition emitted_by {A} (m : W A) (σ : World) : list event :=
  match m σ with
  | Some (_, _, t) => emitted t
  | None => []
  end.

Definition world_after {A} (m : W A) (σ : World) : World :=
  match m σ with
  | Some (_, σ', _) => σ'
  | None => σ
  end.

Definition handle_of (p : Z) (σ : World) : option Z :=
  window_handle_ <$> objects σ !! p.

(** Messages other than the creation message. *)
Definition no_creation_message (msgs : list (Z * Z * Z)) : Prop :=
  Forall (fun m => m.1.1 <> WM_NCCREATE) msgs.

(** The requests default handling sees for a list of messages. *)
Definition defaulted (hwnd : Z) (msgs : list (Z * Z * Z)) : list effect :=
  map (fun m => Call (DefWindowProc hwnd m.1.1 m.1.2 m.2)) msgs.

(** ** A concrete environment for evaluation

    A US keyboard restricted to letters and digits, a fixed DPI, default
    handling that answers zero, and titles that convert to themselves. *)

Definition sample_GetDpiForHWND (hwnd : Z) : Z := 96.

Definition sample_MapVirtualKey (code map_type : Z) : Z :=
  if map_type =? MAPVK_VK_TO_CHAR then
    if ((0x41 <=? code) && (code <=? 0x5A))
       || ((0x30 <=? code) && (code <=? 0x39))
    then code else 0
  else if map_type =? MAPVK_VSC_TO_VK_EX then
    if code =? 0x2A then 0xA0 else if code =? 0x36 then 0xA1 else 0
  else 0.

Definition sample_DefWindowProc_result (hwnd message wparam lparam : Z) : Z
  := 0.

Definition sample_NarrowToWide (title : string) : string := title.

Definition sample_MessageHandler : Z -> Z -> Z -> Z -> M Z :=
  MessageHandler sample_GetDpiForHWND sample_MapVirtualKey
    sample_DefWindowProc_result.

Definition sample_feed : Z -> list (Z * Z * Z) -> HState
                         -> HState * list effect :=
  feed sample_GetDpiForHWND sample_MapVirtualKey sample_DefWindowProc_result.

Definition sample_WndProc : Z -> Z -> Z -> Z -> Z -> W Z :=
  WndProc sample_GetDpiForHWND sample_MapVirtualKey
    sample_DefWindowProc_result.

Definition sample_InitializeChild
  : Z -> string -> Z -> Z -> creation -> W unit :=
  InitializeChild sample_GetDpiForHWND sample_MapVirtualKey
    sample_DefWindowProc_result sample_NarrowToWide.

Definition sample_window (hwnd : Z) (name : string) : Win32Window :=
  mkWin32Window hwnd 96 0 0 false 0 name.

(** Two live windows: handle 11 owned by the object at 1000, handle 22
    by the object at 2000. *)
Definition two_windows : World :=
  mkWorld 0 {[ 11 := 1000; 22 := 2000 ]}
    {[ 1000 := sample_window 11 "A"; 2000 := sample_window 22 "B" ]}.

(** ** The query surface *)

Definition GetCurrentDPI : M Z := member current_dpi_.
Definition GetCurrentWidth : M Z := member current_width_.
Definition GetCurrentHeight : M Z := member current_height_.
Definition GetWindowHandle : M Z := member window_handle_.

(** ** Vocabulary of the further statements *)

(** The sender's packing of two 16-bit fields into the low 32 bits of a
    message parameter ([MAKELONG] of the platform headers); [upper] is
    whatever the sender left above bit 31. *)
Definition packed (lo hi upper : Z) : Z :=
  lo mod 2 ^ 16 + 2 ^ 16 * (hi mod 2 ^ 16) + 2 ^ 32 * upper.

(** The size and the DPI most recently announced along a list of hooks. *)
Fixpoint last_resize (es : list event) : option (Z * Z) :=
  match es with
  | [] => None
  | e :: es' =>
      match last_resize es' with
      | Some size => Some size
      | None => match e with OnResize w h => Some (w, h) | _ => None end
      end
  end.

Fixpoint last_dpi (es : list event) : option Z :=
  match es with
  | [] => None
  | e :: es' =>
      match last_dpi es' with
      | Some dpi => Some dpi
      | None => match e with OnDpiScale dpi => Some dpi | _ => None end
      end
  end.

(** The messages that end without default handling. *)
Definition bypasses_default (message wparam : Z) : bool :=
  (message =? kWmDpiChangedBeforeParent)
  || ((message =? WM_UNICHAR) && (wparam =? UNICODE_NOCHAR)).

Definition is_DefWindowProc (n : native) : bool :=
  match n with DefWindowProc _ _ _ _ => true | _ => false end.

(** The native calls that create or destroy windows and classes. *)
Definition is_lifecycle_call (n : native) : bool :=
  match n with
  | DestroyWindow _ | UnregisterClass _ | RegisterClass _
  | CreateWindowEx _ _ _ _ _ | OutputDebugString _ => true
  | _ => false
  end.

Definition is_capture_call (n : native) : bool :=
  match n with SetCapture _ | ReleaseCapture => true | _ => false end.

(** The messages the switch has a case for. *)
Definition has_case (message : Z) : bool :=
  (message =? kWmDpiChangedBeforeParent) || (message =? WM_SIZE)
  || (message =? WM_FONTCHANGE) || (message =? WM_MOUSEMOVE)
  || (message =? WM_MOUSELEAVE)
  || (message =? WM_LBUTTONDOWN) || (message =? WM_RBUTTONDOWN)
  || (message =? WM_MBUTTONDOWN) || (message =? WM_XBUTTONDOWN)
  || (message =? WM_LBUTTONUP) || (message =? WM_RBUTTONUP)
  || (message =? WM_MBUTTONUP) || (message =? WM_XBUTTONUP)
  || (message =? WM_MOUSEWHEEL) || (message =? WM_UNICHAR)
  || (message =? WM_DEADCHAR) || (message =? WM_SYSDEADCHAR)
  || (message =? WM_CHAR) || (message =? WM_SYSCHAR)
  || (message =? WM_KEYDOWN) || (message =? WM_SYSKEYDOWN)
  || (message =? WM_KEYUP) || (message =? WM_SYSKEYUP).

(** The four raw key transitions. *)
Definition is_key_message (message : Z) : bool :=
  (message =? WM_KEYDOWN) || (message =? WM_SYSKEYDOWN)
  || (message =? WM_KEYUP) || (message =? WM_SYSKEYUP).

(** A run of messages that are neither character messages nor raw key
    transitions. *)
Definition no_text_message (msgs : list (Z * Z * Z)) : Prop :=
  Forall (fun m => is_char_message m.1.1 = false
                   /\ is_key_message m.1.1 = false) msgs.

Definition is_text_event (e : event) : bool := is_OnChar e || is_OnKey e.

(** No lead surrogate pending, or a genuine one. *)
Definition lead_well_formed (lead : Z) : Prop :=
  lead = 0 \/ high_surrogate lead.

(** A run of character messages, each with its subtype and parameters. *)
Definition all_char_messages (msgs : list (Z * Z * Z)) : Prop :=
  Forall (fun m => is_char_message m.1.1 = true) msgs.

(** A run of key-down messages whose keys all map to a character. *)
Definition all_deferred_key_downs (MapVirtualKey : Z -> Z -> Z)
    (msgs : list (Z * Z * Z)) : Prop :=
  Forall (fun m => (m.1.1 = WM_KEYDOWN \/ m.1.1 = WM_SYSKEYDOWN)
                   /\ produces_character MapVirtualKey m.1.2 = true) msgs.

(** The standard decoding of a supplementary-plane code point into its
    UTF-16 pair. *)
Definition lead_of (c : Z) : Z := 0xD800 + (c - 0x10000) / 0x400.
Definition trail_of (c : Z) : Z := 0xDC00 + (c - 0x10000) mod 0x400.

(** * Properties *)

(** ** Surrogate arithmetic *)

Lemma to_uint32_range z : 0 <= to_uint32 z < 2 ^ 32.
Proof. unfold to_uint32. apply Z.mod_pos_bound. lia. Qed.

Lemma to_uint32_small z : 0 <= z < 2 ^ 32 -> to_uint32 z = z.
Proof. intros Hz. unfold to_uint32. apply Z.mod_small, Hz. Qed.

Lemma testbit_top_mask n :
  0 <= n -> Z.testbit 0xFFFFFC00 n = (10 <=? n) && (n <? 32).
Proof.
  intros Hn. change 0xFFFFFC00 with (Z.shiftl (Z.ones 22) 10).
  rewrite Z.shiftl_spec by lia.
  destruct (Z.leb_spec 10 n) as [Hge | Hlt]; simpl.
  - destruct (Z.ltb_spec n 32) as [Hlt | Hge'].
    + apply Z.ones_spec_low. lia.
    + apply Z.ones_spec_high. lia.
  - apply Z.testbit_neg_r. lia.
Qed.

Lemma uint32_high_bits c n :
  0 <= c < 2 ^ 32 -> 32 <= n -> Z.testbit c n = false.
Proof.
  intros [Hc0 Hc] Hn.
  destruct (Z.eq_dec c 0) as [-> | Hne]; [apply Z.bits_0 |].
  apply Z.bits_above_log2; [lia |].
  assert (Z.log2 c < 32) by (apply Z.log2_lt_pow2; lia). lia.
Qed.

Lemma land_top_mask c :
  0 <= c < 2 ^ 32 -> Z.land c 0xFFFFFC00 = 1024 * (c / 1024).
Proof.
  intros Hc.
  transitivity (Z.shiftl (Z.shiftr c 10) 10).
  - apply Z.bits_inj'. intros n Hn.
    rewrite Z.land_spec, testbit_top_mask by lia.
    rewrite Z.shiftl_spec by lia.
    destruct (Z.leb_spec 10 n) as [Hge | Hlt]; simpl.
    + rewrite Z.shiftr_spec by lia.
      replace (n - 10 + 10) with n by lia.
      destruct (Z.ltb_spec n 32) as [Hlt | Hge'].
      * apply andb_true_r.
      * rewrite (uint32_high_bits c n) by lia. reflexivity.
    + rewrite andb_false_r. symmetry. apply Z.testbit_neg_r. lia.
  - rewrite Z.shiftl_mul_pow2, Z.shiftr_div_pow2 by lia.
    change (2 ^ 10) with 1024. lia.
Qed.

(** The mask tests of the source select exactly the surrogate ranges. *)
Lemma lead_test_range c :
  0 <= c < 2 ^ 32 ->
  (Z.land c 0xFFFFFC00 =? 0xD800) = true <-> high_surrogate c.
Proof.
  intros Hc. rewrite land_top_mask by exact Hc. unfold high_surrogate.
  rewrite Z.eqb_eq.
  pose proof (Z.div_mod c 1024 ltac:(lia)) as Hdm.
  pose proof (Z.mod_pos_bound c 1024 ltac:(lia)) as Hm.
  lia.
Qed.

Lemma trail_test_range c :
  0 <= c < 2 ^ 32 ->
  (Z.land c 0xFFFFFC00 =? 0xDC00) = true <-> low_surrogate c.
Proof.
  intros Hc. rewrite land_top_mask by exact Hc. unfold low_surrogate.
  rewrite Z.eqb_eq.
  pose proof (Z.div_mod c 1024 ltac:(lia)) as Hdm.
  pose proof (Z.mod_pos_bound c 1024 ltac:(lia)) as Hm.
  lia.
Qed.

Lemma surrogate_pair_range lead trail :
  0x10000 <= surrogate_pair lead trail <= 0x10FFFF.
Proof.
  unfold surrogate_pair.
  change 0x3FF with (Z.ones 10).
  rewrite !Z.land_ones, Z.shiftl_mul_pow2 by lia.
  pose proof (Z.mod_pos_bound lead (2 ^ 10) ltac:(lia)).
  pose proof (Z.mod_pos_bound trail (2 ^ 10) ltac:(lia)).
  change (2 ^ 10) with 1024 in *. lia.
Qed.

(** The 32-bit arithmetic of the merge never wraps. *)
Lemma merge_no_wrap lead trail :
  to_uint32 (0x10000 + Z.shiftl (Z.land lead 0x000003FF) 10
             + Z.land trail 0x3FF) = surrogate_pair lead trail.
Proof.
  pose proof (surrogate_pair_range lead trail) as H.
  unfold surrogate_pair in *.
  apply to_uint32_small. lia.
Qed.

(** ** Traces *)

Lemma emitted_app t1 t2 : emitted (t1 ++ t2) = emitted t1 ++ emitted t2.
Proof.
  induction t1 as [| [e | n] t1 IH]; cbn [app emitted]; rewrite ?IH;
    reflexivity.
Qed.

Lemma called_app t1 t2 : called (t1 ++ t2) = called t1 ++ called t2.
Proof.
  induction t1 as [| [e | n] t1 IH]; cbn [app called]; rewrite ?IH;
    reflexivity.
Qed.

(** ** How a code point resolves, by range *)

Lemma surrogates_disjoint c : high_surrogate c -> low_surrogate c -> False.
Proof. unfold high_surrogate, low_surrogate. lia. Qed.

Lemma lead_test_true wparam :
  high_surrogate (to_uint32 wparam) ->
  (Z.land (to_uint32 wparam) 0xFFFFFC00 =? 0xD800) = true.
Proof. apply lead_test_range, to_uint32_range. Qed.

Lemma lead_test_false wparam :
  ~ high_surrogate (to_uint32 wparam) ->
  (Z.land (to_uint32 wparam) 0xFFFFFC00 =? 0xD800) = false.
Proof.
  intros Hn. apply not_true_is_false. intros Ht. apply Hn.
  apply lead_test_range; [apply to_uint32_range | exact Ht].
Qed.

Lemma trail_test_true wparam :
  low_surrogate (to_uint32 wparam) ->
  (Z.land (to_uint32 wparam) 0xFFFFFC00 =? 0xDC00) = true.
Proof. apply trail_test_range, to_uint32_range. Qed.

Lemma trail_test_false wparam :
  ~ low_surrogate (to_uint32 wparam) ->
  (Z.land (to_uint32 wparam) 0xFFFFFC00 =? 0xDC00) = false.
Proof.
  intros Hn. apply not_true_is_false. intros Ht. apply Hn.
  apply trail_test_range; [apply to_uint32_range | exact Ht].
Qed.

(** A lead surrogate is kept as it is and becomes the pending one. *)
Lemma resolve_lead lead wparam :
  high_surrogate (to_uint32 wparam) ->
  resolved_code_point lead wparam = to_uint32 wparam
  /\ next_lead_surrogate lead wparam = to_uint32 wparam.
Proof.
  intros Hh. unfold resolved_code_point, next_lead_surrogate. cbv zeta.
  rewrite (lead_test_true _ Hh). split; reflexivity.
Qed.

(** A trail surrogate merges with whatever lead is pending. *)
Lemma resolve_trail lead wparam :
  lead <> 0 ->
  low_surrogate (to_uint32 wparam) ->
  resolved_code_point lead wparam = surrogate_pair lead (to_uint32 wparam)
  /\ next_lead_surrogate lead wparam = 0.
Proof.
  intros Hl Ht. unfold resolved_code_point, next_lead_surrogate. cbv zeta.
  rewrite lead_test_false
    by (intros Hh; exact (surrogates_disjoint _ Hh Ht)).
  rewrite (trail_test_true _ Ht).
  apply Z.eqb_neq in Hl. rewrite Hl. split; reflexivity.
Qed.

(** Any other code point passes through and leaves the pending lead
    alone. *)
Lemma resolve_other lead wparam :
  ~ high_surrogate (to_uint32 wparam) ->
  ~ low_surrogate (to_uint32 wparam) ->
  resolved_code_point lead wparam = to_uint32 wparam
  /\ next_lead_surrogate lead wparam = lead.
Proof.
  intros Hh Ht. unfold resolved_code_point, next_lead_surrogate. cbv zeta.
  rewrite (lead_test_false _ Hh), (trail_test_false _ Ht), andb_false_r.
  split; reflexivity.
Qed.

(** A trail surrogate with no lead pending passes through. *)
Lemma resolve_trail_alone wparam :
  low_surrogate (to_uint32 wparam) ->
  resolved_code_point 0 wparam = to_uint32 wparam
  /\ next_lead_surrogate 0 wparam = 0.
Proof.
  intros Ht. unfold resolved_code_point, next_lead_surrogate. cbv zeta.
  rewrite lead_test_false
    by (intros Hh; exact (surrogates_disjoint _ Hh Ht)).
  split; reflexivity.
Qed.

Lemma surrogate_not_backspace wparam :
  high_surrogate (to_uint32 wparam) \/ low_surrogate (to_uint32 wparam) ->
  (wparam =? VK_BACK) = false.
Proof.
  intros H. apply Z.eqb_neq. intros ->.
  change (to_uint32 VK_BACK) with 8 in H.
  unfold high_surrogate, low_surrogate in H. lia.
Qed.

(** ** The character family *)

Lemma is_char_message_cases message :
  is_char_message message = true ->
  message = WM_DEADCHAR \/ message = WM_SYSDEADCHAR
  \/ message = WM_CHAR \/ message = WM_SYSCHAR.
Proof.
  unfold is_char_message. rewrite !orb_true_iff, !Z.eqb_eq. tauto.
Qed.

Lemma char_is_text_spec message wparam :
  is_char_message message = true ->
  char_is_text message wparam = true <->
  (message = WM_CHAR \/ message = WM_SYSCHAR) /\ wparam <> VK_BACK.
Proof.
  intros Hm. unfold char_is_text.
  rewrite !andb_true_iff, !negb_true_iff, !Z.eqb_neq.
  destruct (is_char_message_cases _ Hm) as [-> | [-> | [-> | ->]]];
    unfold WM_CHAR, WM_SYSCHAR, WM_DEADCHAR, WM_SYSDEADCHAR; lia.
Qed.

Lemma char_message_not_creation message :
  is_char_message message = true -> message <> WM_NCCREATE.
Proof.
  intros Hm. destruct (is_char_message_cases _ Hm) as [-> | [-> | [-> | ->]]];
    discriminate.
Qed.

(** ** Evaluating the handler monad *)

Ltac step_M :=
  cbv beta iota delta
    [mbind M_bind mret M_ret member assign emit call when
     get_lead_surrogate set_lead_surrogate result_of state_of trace_of
     fst snd];
  cbn [lead_surrogate this negb andb orb app].

(** Case analysis on every comparison the handler makes. *)
Ltac split_tests :=
  repeat (step_M;
          match goal with
          | |- context [?x =? ?y] => destruct (x =? y) eqn:?
          | |- context [?x <? ?y] => destruct (x <? y) eqn:?
          end);
  step_M.

(** Selecting the case of a concrete message. *)
Ltac dispatch :=
  unfold MessageHandler, message_switch;
  cbn [Z.eqb Pos.eqb orb WM_DEADCHAR WM_SYSDEADCHAR WM_CHAR WM_SYSCHAR
       kWmDpiChangedBeforeParent WM_SIZE WM_FONTCHANGE WM_MOUSEMOVE
       WM_MOUSELEAVE WM_LBUTTONDOWN WM_RBUTTONDOWN WM_MBUTTONDOWN
       WM_XBUTTONDOWN WM_LBUTTONUP WM_RBUTTONUP WM_MBUTTONUP WM_XBUTTONUP
       WM_MOUSEWHEEL WM_UNICHAR WM_KEYDOWN WM_SYSKEYDOWN WM_KEYUP
       WM_SYSKEYUP].

Section HandlerFacts.

Variable GetDpiForHWND : Z -> Z.
Variable MapVirtualKey : Z -> Z -> Z.
Variable DefWindowProc_result : Z -> Z -> Z -> Z -> Z.

Local Abbreviation MessageHandler :=
  (MessageHandler GetDpiForHWND MapVirtualKey DefWindowProc_result).
Local Abbreviation feed :=
  (feed GetDpiForHWND MapVirtualKey DefWindowProc_result).

(** *** The character cases in closed form *)

Lemma case_char_run message wparam lparam s :
  case_char message wparam lparam s =
  let code_point := resolved_code_point (lead_surrogate s) wparam in
  let keycode := keycode_for_char_message_ (this s) in
  (None,
   mkHState (next_lead_surrogate (lead_surrogate s) wparam)
     (if keycode =? 0 then this s
      else set_keycode_for_char_message_ 0 (this s)),
   (if char_is_text message wparam then [Emit (OnChar code_point)] else [])
   ++ (if keycode =? 0 then []
       else [Emit (OnKey keycode (scancode_of lparam) WM_KEYDOWN
                     code_point)])).
Proof.
  destruct s as [lead w].
  unfold case_char, resolved_code_point, next_lead_surrogate, char_is_text,
    scancode_of.
  split_tests; rewrite ?merge_no_wrap; reflexivity.
Qed.

(** A character message runs the character case and then default
    handling. *)
Lemma MessageHandler_char hwnd message wparam lparam s :
  is_char_message message = true ->
  MessageHandler hwnd message wparam lparam s =
  (DefWindowProc_result hwnd message wparam lparam,
   state_of (case_char message wparam lparam s),
   trace_of (case_char message wparam lparam s)
   ++ [Call (DefWindowProc hwnd message wparam lparam)]).
Proof.
  intros Hm. rewrite case_char_run.
  destruct (is_char_message_cases _ Hm) as [-> | [-> | [-> | ->]]];
    dispatch; unfold mbind at 1, M_bind at 1; rewrite case_char_run;
    step_M; rewrite <- ?app_assoc; reflexivity.
Qed.

(** *** The raw key transitions *)

Lemma MessageHandler_keydown_deferred hwnd message wparam lparam s :
  message = WM_KEYDOWN \/ message = WM_SYSKEYDOWN ->
  produces_character MapVirtualKey wparam = true ->
  MessageHandler hwnd message wparam lparam s =
  (DefWindowProc_result hwnd message wparam lparam,
   mkHState (lead_surrogate s)
     (set_keycode_for_char_message_ (keycode_of_wparam wparam) (this s)),
   [Call (DefWindowProc hwnd message wparam lparam)]).
Proof.
  unfold produces_character. intros [-> | ->] Hc;
    dispatch; unfold case_key; cbn [Z.eqb Pos.eqb orb WM_KEYDOWN WM_SYSKEYDOWN];
    rewrite Hc; step_M; reflexivity.
Qed.

Lemma MessageHandler_keydown_immediate hwnd message wparam lparam s :
  message = WM_KEYDOWN \/ message = WM_SYSKEYDOWN ->
  produces_character MapVirtualKey wparam = false ->
  MessageHandler hwnd message wparam lparam s =
  (DefWindowProc_result hwnd message wparam lparam, s,
   [Emit (OnKey (key_code_of MapVirtualKey wparam lparam)
            (scancode_of lparam) WM_KEYDOWN 0);
    Call (DefWindowProc hwnd message wparam lparam)]).
Proof.
  unfold produces_character. intros [-> | ->] Hc;
    dispatch; unfold case_key; cbn [Z.eqb Pos.eqb orb WM_KEYDOWN WM_SYSKEYDOWN];
    rewrite Hc; step_M; reflexivity.
Qed.

Lemma MessageHandler_keyup hwnd message wparam lparam s :
  message = WM_KEYUP \/ message = WM_SYSKEYUP ->
  MessageHandler hwnd message wparam lparam s =
  (DefWindowProc_result hwnd message wparam lparam, s,
   [Emit (OnKey (key_code_of MapVirtualKey wparam lparam)
            (scancode_of lparam) WM_KEYUP 0);
    Call (DefWindowProc hwnd message wparam lparam)]).
Proof.
  intros [-> | ->];
    dispatch; unfold case_key;
    cbn [Z.eqb Pos.eqb orb WM_KEYDOWN WM_SYSKEYDOWN WM_KEYUP WM_SYSKEYUP];
    rewrite andb_false_r; step_M; reflexivity.
Qed.

(** *** The pointer cases *)

Lemma MessageHandler_mousemove hwnd wparam lparam s :
  MessageHandler hwnd WM_MOUSEMOVE wparam lparam s =
  (DefWindowProc_result hwnd WM_MOUSEMOVE wparam lparam,
   mkHState (lead_surrogate s) (set_tracking_mouse_leave_ true (this s)),
   (if tracking_mouse_leave_ (this s) then []
    else [Call (TrackMouseEvent hwnd)])
   ++ [Emit (OnPointerMove (GET_X_LPARAM lparam) (GET_Y_LPARAM lparam));
       Call (DefWindowProc hwnd WM_MOUSEMOVE wparam lparam)]).
Proof.
  destruct s as [lead [h d wd ht [|] k n]];
    dispatch; unfold TrackMouseLeaveEvent; step_M; reflexivity.
Qed.

Lemma MessageHandler_mouseleave hwnd wparam lparam s :
  MessageHandler hwnd WM_MOUSELEAVE wparam lparam s =
  (DefWindowProc_result hwnd WM_MOUSELEAVE wparam lparam,
   mkHState (lead_surrogate s) (set_tracking_mouse_leave_ false (this s)),
   [Emit OnPointerLeave;
    Call (DefWindowProc hwnd WM_MOUSELEAVE wparam lparam)]).
Proof. dispatch. step_M. reflexivity. Qed.

(** *** What no message touches *)

Ltac every_case :=
  unfold MessageHandler, message_switch, case_char, case_key,
    case_button_down, case_button_up, TrackMouseLeaveEvent, HandleResize;
  split_tests.

(** The handler never writes the stored handle or the class name. *)
Lemma MessageHandler_keeps_handle hwnd message wparam lparam s :
  let s' := state_of (MessageHandler hwnd message wparam lparam s) in
  window_handle_ (this s') = window_handle_ (this s)
  /\ window_class_name_ (this s') = window_class_name_ (this s).
Proof.
  destruct s as [lead [h d wd ht [|] k n]]; cbv zeta;
    every_case; split; reflexivity.
Qed.

(** The handler never destroys a native window. *)
Lemma MessageHandler_releases_nothing hwnd message wparam lparam s u :
  released (trace_of (MessageHandler hwnd message wparam lparam s)) u = u.
Proof.
  destruct s as [lead [h d wd ht [|] k n]];
    every_case; reflexivity.
Qed.

(** *** Runs of messages *)

Lemma feed_app hwnd msgs1 msgs2 s :
  feed hwnd (msgs1 ++ msgs2) s =
  (fst (feed hwnd msgs2 (fst (feed hwnd msgs1 s))),
   snd (feed hwnd msgs1 s) ++ snd (feed hwnd msgs2 (fst (feed hwnd msgs1 s)))).
Proof.
  revert s. induction msgs1 as [| [[message wparam] lparam] rest IH]; intros s.
  - cbn [app feed fst snd]. destruct (feed hwnd msgs2 s); reflexivity.
  - cbn [app feed]. rewrite IH.
    destruct (feed hwnd rest _) as [s1 t1]. cbn [fst snd].
    rewrite app_assoc. reflexivity.
Qed.

(** *** What a character message emits *)

Lemma char_message_outcome hwnd message wparam lparam s :
  is_char_message message = true ->
  let r := MessageHandler hwnd message wparam lparam s in
  let code_point := resolved_code_point (lead_surrogate s) wparam in
  let keycode := keycode_for_char_message_ (this s) in
  emitted (trace_of r) =
    (if char_is_text message wparam then [OnChar code_point] else [])
    ++ (if keycode =? 0 then []
        else [OnKey keycode (scancode_of lparam) WM_KEYDOWN code_point])
  /\ lead_surrogate (state_of r) =
       next_lead_surrogate (lead_surrogate s) wparam
  /\ keycode_for_char_message_ (this (state_of r)) = 0
  /\ tracking_mouse_leave_ (this (state_of r)) =
       tracking_mouse_leave_ (this s)
  /\ called (trace_of r) = [DefWindowProc hwnd message wparam lparam].
Proof.
  intros Hm. cbv zeta. rewrite (MessageHandler_char _ _ _ _ _ Hm).
  rewrite case_char_run. cbv zeta. unfold state_of, trace_of.
  cbn [fst snd lead_surrogate this]. rewrite emitted_app, called_app.
  destruct (char_is_text message wparam);
    destruct (keycode_for_char_message_ (this s) =? 0) eqn:Hk;
    cbn [app emitted called]; repeat split; try reflexivity.
  all: apply Z.eqb_eq, Hk.
Qed.

(** *** Text suppression *)

(** C5.  A character-family message invokes the text hook if and only if
    it is a plain or system character message and its parameter is not
    backspace, and then exactly once, with the resolved code point.  A
    dead-character message never invokes it, whatever its code point, yet
    it still reports the pending key code, if there is one, by one key
    event carrying the resolved code point. *)
Theorem C5_char_iff_plain_and_not_backspace hwnd message wparam lparam s :
  is_char_message message = true ->
  let r := MessageHandler hwnd message wparam lparam s in
  let code_point := resolved_code_point (lead_surrogate s) wparam in
  let keycode := keycode_for_char_message_ (this s) in
  ((exists c, In (OnChar c) (emitted (trace_of r))) <->
   (message = WM_CHAR \/ message = WM_SYSCHAR) /\ wparam <> VK_BACK)
  /\ List.filter is_OnChar (emitted (trace_of r)) =
       (if char_is_text message wparam then [OnChar code_point] else [])
  /\ (message = WM_DEADCHAR \/ message = WM_SYSDEADCHAR ->
       List.filter is_OnChar (emitted (trace_of r)) = []
       /\ (keycode <> 0 ->
           List.filter is_OnKey (emitted (trace_of r)) =
           [OnKey keycode (scancode_of lparam) WM_KEYDOWN code_point])).
Proof.
  intros Hm. cbv zeta.
  destruct (char_message_outcome hwnd message wparam lparam s Hm)
    as (He & _). cbv zeta in He. rewrite He. clear He.
  pose proof (char_is_text_spec message wparam Hm) as Htext.
  assert (Hfilter :
    forall (b : bool) c (ks : list event),
      (forall e, In e ks -> is_OnChar e = false) ->
      List.filter is_OnChar ((if b then [OnChar c] else []) ++ ks) =
      (if b then [OnChar c] else [])).
  { intros b c ks Hks.
    assert (List.filter is_OnChar ks = []) as Hnil.
    { induction ks as [| e ks IH]; [reflexivity |].
      cbn [List.filter]. rewrite (Hks e) by (left; reflexivity).
      apply IH. intros e' He'. apply Hks. right. exact He'. }
    rewrite List.filter_app, Hnil. destruct b; reflexivity. }
  set (ks := if keycode_for_char_message_ (this s) =? 0 then []
             else [OnKey (keycode_for_char_message_ (this s))
                     (scancode_of lparam) WM_KEYDOWN
                     (resolved_code_point (lead_surrogate s) wparam)]).
  assert (Hks : forall e, In e ks -> is_OnChar e = false).
  { subst ks. intros e.
    destruct (keycode_for_char_message_ (this s) =? 0);
      [intros [] | intros [<- | []]; reflexivity]. }
  split; [split | split; [| intros Hdead; split]].
  - intros [c Hc]. apply in_app_or in Hc. destruct Hc as [Hc | Hc].
    + destruct (char_is_text message wparam); [| destruct Hc].
      apply (proj1 Htext). reflexivity.
    + specialize (Hks _ Hc). discriminate Hks.
  - intros Hplain. apply (proj2 Htext) in Hplain. rewrite Hplain.
    eexists. apply in_or_app. left. left. reflexivity.
  - apply Hfilter, Hks.
  - rewrite Hfilter by exact Hks.
    replace (char_is_text message wparam) with false; [reflexivity |].
    symmetry. apply not_true_is_false. intros Ht.
    apply (proj1 Htext) in Ht. destruct Ht as [Ht _].
    unfold WM_CHAR, WM_SYSCHAR, WM_DEADCHAR, WM_SYSDEADCHAR in *. lia.
  - intros Hk. subst ks. apply Z.eqb_neq in Hk. rewrite Hk.
    rewrite List.filter_app.
    destruct (char_is_text message wparam); reflexivity.
Qed.

(** *** Key and character correlation *)

Lemma key_events_of_char_message hwnd message wparam lparam s :
  is_char_message message = true ->
  let r := MessageHandler hwnd message wparam lparam s in
  let keycode := keycode_for_char_message_ (this s) in
  List.filter is_OnKey (emitted (trace_of r)) =
  if keycode =? 0 then []
  else [OnKey keycode (scancode_of lparam) WM_KEYDOWN
          (resolved_code_point (lead_surrogate s) wparam)].
Proof.
  intros Hm. cbv zeta.
  destruct (char_message_outcome hwnd message wparam lparam s Hm)
    as (He & _). cbv zeta in He. rewrite He, List.filter_app.
  destruct (char_is_text message wparam);
    destruct (keycode_for_char_message_ (this s) =? 0); reflexivity.
Qed.

(** C4.  A key-down (or system-key-down) whose key maps to a character
    emits nothing and records the key code; the character message that
    follows then emits exactly one key event, carrying the recorded key
    code, the scancode of the character message, the key-down action and
    the resolved code point, and clears the record.  A key-down whose key
    maps to no character emits exactly one key event at once, with no
    character, and records nothing. *)
Theorem C4_key_down_correlates_with_char hwnd message wparam lparam s :
  message = WM_KEYDOWN \/ message = WM_SYSKEYDOWN ->
  let r := MessageHandler hwnd message wparam lparam s in
  if produces_character MapVirtualKey wparam then
    emitted (trace_of r) = []
    /\ keycode_for_char_message_ (this (state_of r)) =
         keycode_of_wparam wparam
    /\ lead_surrogate (state_of r) = lead_surrogate s
    /\ (keycode_of_wparam wparam <> 0 ->
         forall message' wparam' lparam',
           is_char_message message' = true ->
           let r' := MessageHandler hwnd message' wparam' lparam'
                       (state_of r) in
           List.filter is_OnKey (emitted (trace_of r')) =
             [OnKey (keycode_of_wparam wparam) (scancode_of lparam')
                WM_KEYDOWN
                (resolved_code_point (lead_surrogate s) wparam')]
           /\ keycode_for_char_message_ (this (state_of r')) = 0)
  else
    emitted (trace_of r) =
      [OnKey (key_code_of MapVirtualKey wparam lparam) (scancode_of lparam)
         WM_KEYDOWN 0]
    /\ state_of r = s.
Proof.
  intros Hdown. cbv zeta.
  destruct (produces_character MapVirtualKey wparam) eqn:Hc.
  - rewrite (MessageHandler_keydown_deferred _ _ _ _ _ Hdown Hc).
    unfold state_of at 1 2 3, trace_of at 1.
    cbn [fst snd lead_surrogate this emitted].
    split; [reflexivity | split; [reflexivity | split; [reflexivity |]]].
    intros Hkey message' wparam' lparam' Hm'. split.
    + pose proof (key_events_of_char_message hwnd message' wparam' lparam'
                    (mkHState (lead_surrogate s)
                       (set_keycode_for_char_message_
                          (keycode_of_wparam wparam) (this s))) Hm') as Hk.
      cbv zeta in Hk.
      cbn [lead_surrogate this set_keycode_for_char_message_
           keycode_for_char_message_] in Hk.
      apply Z.eqb_neq in Hkey. rewrite Hkey in Hk. exact Hk.
    + apply (char_message_outcome hwnd message' wparam' lparam' _ Hm').
  - rewrite (MessageHandler_keydown_immediate _ _ _ _ _ Hdown Hc).
    split; reflexivity.
Qed.

(** *** Surrogates *)

(** A lead surrogate is stored and the message is then processed like
    any other: nothing stops it. *)
Lemma lead_surrogate_falls_through hwnd message wparam lparam s :
  is_char_message message = true ->
  high_surrogate (to_uint32 wparam) ->
  let r := MessageHandler hwnd message wparam lparam s in
  let keycode := keycode_for_char_message_ (this s) in
  lead_surrogate (state_of r) = to_uint32 wparam
  /\ emitted (trace_of r) =
       (if negb (message =? WM_DEADCHAR) && negb (message =? WM_SYSDEADCHAR)
        then [OnChar (to_uint32 wparam)] else [])
       ++ (if keycode =? 0 then []
           else [OnKey keycode (scancode_of lparam) WM_KEYDOWN
                   (to_uint32 wparam)]).
Proof.
  intros Hm Hh. cbv zeta.
  destruct (char_message_outcome hwnd message wparam lparam s Hm)
    as (He & Hl & _). cbv zeta in He. rewrite He, Hl.
  destruct (resolve_lead (lead_surrogate s) wparam Hh) as [-> ->].
  unfold char_is_text.
  rewrite (surrogate_not_backspace wparam) by (left; exact Hh).
  split; reflexivity.
Qed.

(** A trail surrogate merges with the pending lead, whichever message
    stored it, and clears it. *)
Lemma trail_surrogate_merges hwnd message wparam lparam s :
  is_char_message message = true ->
  lead_surrogate s <> 0 ->
  low_surrogate (to_uint32 wparam) ->
  let r := MessageHandler hwnd message wparam lparam s in
  let keycode := keycode_for_char_message_ (this s) in
  let merged := surrogate_pair (lead_surrogate s) (to_uint32 wparam) in
  lead_surrogate (state_of r) = 0
  /\ emitted (trace_of r) =
       (if negb (message =? WM_DEADCHAR) && negb (message =? WM_SYSDEADCHAR)
        then [OnChar merged] else [])
       ++ (if keycode =? 0 then []
           else [OnKey keycode (scancode_of lparam) WM_KEYDOWN merged]).
Proof.
  intros Hm Hl Ht. cbv zeta.
  destruct (char_message_outcome hwnd message wparam lparam s Hm)
    as (He & Hn & _). cbv zeta in He. rewrite He, Hn.
  destruct (resolve_trail (lead_surrogate s) wparam Hl Ht) as [-> ->].
  unfold char_is_text.
  rewrite (surrogate_not_backspace wparam) by (right; exact Ht).
  split; reflexivity.
Qed.

(** C3, as the code has it.  A character message whose code point is
    neither a lead nor a trail surrogate is processed on its own, its
    code point unchanged, and leaves the pending lead surrogate as it
    was; a trail surrogate arriving after it therefore still merges with
    the lead stored before it. *)
Theorem C3_other_code_point_keeps_pending_lead
    hwnd message wparam lparam s :
  is_char_message message = true ->
  ~ high_surrogate (to_uint32 wparam) ->
  ~ low_surrogate (to_uint32 wparam) ->
  let r := MessageHandler hwnd message wparam lparam s in
  let keycode := keycode_for_char_message_ (this s) in
  lead_surrogate (state_of r) = lead_surrogate s
  /\ emitted (trace_of r) =
       (if char_is_text message wparam then [OnChar (to_uint32 wparam)]
        else [])
       ++ (if keycode =? 0 then []
           else [OnKey keycode (scancode_of lparam) WM_KEYDOWN
                   (to_uint32 wparam)])
  /\ (lead_surrogate s <> 0 ->
       forall message' wparam' lparam',
         (message' = WM_CHAR \/ message' = WM_SYSCHAR) ->
         low_surrogate (to_uint32 wparam') ->
         let r' := MessageHandler hwnd message' wparam' lparam'
                     (state_of r) in
         emitted (trace_of r') =
           [OnChar (surrogate_pair (lead_surrogate s) (to_uint32 wparam'))]
         /\ lead_surrogate (state_of r') = 0).
Proof.
  intros Hm Hh Ht. cbv zeta.
  destruct (char_message_outcome hwnd message wparam lparam s Hm)
    as (He & Hl & Hk & _). cbv zeta in He.
  destruct (resolve_other (lead_surrogate s) wparam Hh Ht) as [Hr Hn].
  rewrite Hr in He. rewrite Hn in Hl.
  split; [exact Hl | split; [exact He |]].
  intros Hlead message' wparam' lparam' Hplain Htrail.
  assert (Hm' : is_char_message message' = true)
    by (destruct Hplain as [-> | ->]; reflexivity).
  destruct (trail_surrogate_merges hwnd message' wparam' lparam'
              (state_of (MessageHandler hwnd message wparam lparam s)) Hm')
    as [Hl' He']; [rewrite Hl; exact Hlead | exact Htrail |].
  cbv zeta in He'. rewrite Hl, Hk in He'. split; [| exact Hl'].
  rewrite He'. destruct Hplain as [-> | ->]; reflexivity.
Qed.

(** *** Mouse-leave tracking *)

(** A run of moves arms tracking at most once, at its first move when
    tracking was not armed, and emits no leave event. *)
Lemma feed_moves hwnd params s :
  let run := feed hwnd (moves params) s in
  tracking_mouse_leave_ (this (fst run)) =
    tracking_mouse_leave_ (this s)
    || negb (match params with [] => true | _ => false end)
  /\ List.filter is_OnPointerLeave (emitted (snd run)) = []
  /\ List.filter is_TrackMouseEvent (called (snd run)) =
       (if tracking_mouse_leave_ (this s)
           || match params with [] => true | _ => false end
        then [] else [TrackMouseEvent hwnd]).
Proof.
  cbv zeta. revert s.
  induction params as [| [wparam lparam] params IH]; intros s.
  - cbn [moves map feed fst snd emitted called List.filter negb].
    rewrite !orb_true_r, orb_false_r. repeat split; reflexivity.
  - cbn [moves map feed fst snd negb]. fold (moves params).
    rewrite MessageHandler_mousemove.
    unfold state_of, trace_of. cbn [fst snd].
    specialize (IH (mkHState (lead_surrogate s)
                      (set_tracking_mouse_leave_ true (this s)))).
    destruct (feed hwnd (moves params) _) as [s' t'].
    cbn [fst snd lead_surrogate this tracking_mouse_leave_
         set_tracking_mouse_leave_ orb] in IH.
    destruct IH as (IHs & IHe & IHc).
    cbn [fst snd]. rewrite !emitted_app, !called_app, !List.filter_app.
    rewrite IHs, IHe, IHc, orb_false_r, orb_true_r.
    destruct (tracking_mouse_leave_ (this s));
      repeat split; reflexivity.
Qed.

(** C6.  The leave-tracking flag is a two-state machine.  A move arms
    tracking when it is not armed and changes nothing when it is; a leave
    emits the leave event and disarms.  Hence any run of moves followed
    by one leave emits exactly one leave event and arms tracking at most
    once, and a move after the leave arms tracking again. *)
Theorem C6_leave_tracking_state_machine hwnd s :
  (forall wparam lparam,
     let r := MessageHandler hwnd WM_MOUSEMOVE wparam lparam s in
     tracking_mouse_leave_ (this (state_of r)) = true
     /\ List.filter is_TrackMouseEvent (called (trace_of r)) =
          (if tracking_mouse_leave_ (this s) then []
           else [TrackMouseEvent hwnd]))
  /\ (forall wparam lparam,
        let r := MessageHandler hwnd WM_MOUSELEAVE wparam lparam s in
        tracking_mouse_leave_ (this (state_of r)) = false
        /\ emitted (trace_of r) = [OnPointerLeave])
  /\ (forall params wleave lleave,
        let run :=
          feed hwnd (moves params ++ [(WM_MOUSELEAVE, wleave, lleave)]) s in
        List.filter is_OnPointerLeave (emitted (snd run)) = [OnPointerLeave]
        /\ List.filter is_TrackMouseEvent (called (snd run)) =
             (if tracking_mouse_leave_ (this s)
                 || match params with [] => true | _ => false end
              then [] else [TrackMouseEvent hwnd])
        /\ tracking_mouse_leave_ (this (fst run)) = false
        /\ forall wparam lparam,
             let r := MessageHandler hwnd WM_MOUSEMOVE wparam lparam
                        (fst run) in
             tracking_mouse_leave_ (this (state_of r)) = true
             /\ List.filter is_TrackMouseEvent (called (trace_of r)) =
                  [TrackMouseEvent hwnd]).
Proof.
  split; [| split].
  - intros wparam lparam. cbv zeta. rewrite MessageHandler_mousemove.
    unfold state_of, trace_of. cbn [fst snd this]. rewrite called_app.
    destruct (tracking_mouse_leave_ (this s)); split; reflexivity.
  - intros wparam lparam. cbv zeta. rewrite MessageHandler_mouseleave.
    split; reflexivity.
  - intros params wleave lleave. cbv zeta. rewrite feed_app.
    destruct (feed_moves hwnd params s) as (Hs & He & Hc). cbv zeta in *.
    destruct (feed hwnd (moves params) s) as [s1 t1].
    cbn [fst snd] in *. cbn [feed]. rewrite MessageHandler_mouseleave.
    unfold state_of, trace_of. cbn [fst snd].
    rewrite !emitted_app, !called_app, !List.filter_app, He, Hc.
    cbn [app emitted called List.filter is_OnPointerLeave
         is_TrackMouseEvent this tracking_mouse_leave_
         set_tracking_mouse_leave_].
    rewrite app_nil_r.
    split; [reflexivity | split; [reflexivity | split; [reflexivity |]]].
    intros wparam lparam. rewrite MessageHandler_mousemove.
    unfold state_of, trace_of. cbn [fst snd this tracking_mouse_leave_
      set_tracking_mouse_leave_]. split; reflexivity.
Qed.

(** C9.  A leave message emits the leave event and disarms tracking
    whatever the flag was: the handler does not look at it, so this also
    holds when no move ever armed tracking.  Nothing else changes. *)
Theorem C9_leave_is_unconditional hwnd wparam lparam s :
  let r := MessageHandler hwnd WM_MOUSELEAVE wparam lparam s in
  emitted (trace_of r) = [OnPointerLeave]
  /\ tracking_mouse_leave_ (this (state_of r)) = false
  /\ state_of r =
       mkHState (lead_surrogate s)
         (set_tracking_mouse_leave_ false (this s))
  /\ called (trace_of r) = [DefWindowProc hwnd WM_MOUSELEAVE wparam lparam].
Proof.
  cbv zeta. rewrite MessageHandler_mouseleave. repeat split; reflexivity.
Qed.

End HandlerFacts.

(** ** Tear-down *)

Lemma Destroy_run s :
  Destroy s =
  (tt,
   (if window_handle_ (this s) =? 0 then s
    else mkHState (lead_surrogate s) (set_window_handle_ 0 (this s))),
   (if window_handle_ (this s) =? 0 then []
    else [Call (DestroyWindow (window_handle_ (this s)))])
   ++ [Call (UnregisterClass (window_class_name_ (this s)))]).
Proof.
  destruct s as [lead w]. unfold Destroy. split_tests; reflexivity.
Qed.

Lemma on_object_run {A} p (m : M A) σ w :
  objects σ !! p = Some w ->
  on_object p m σ =
  let r := m (mkHState (static_lead_surrogate σ) w) in
  Some (result_of r,
        mkWorld (lead_surrogate (state_of r))
          (released (trace_of r) (userdata σ))
          (<[p := this (state_of r)]> (objects σ)),
        trace_of r).
Proof. intros Hp. unfold on_object. rewrite Hp. reflexivity. Qed.

(** [Destroy] on the object at [p], seen from the process. *)
Lemma Destroy_in_process p σ w :
  objects σ !! p = Some w ->
  world_after (on_object p Destroy) σ =
  mkWorld (static_lead_surrogate σ)
    (if window_handle_ w =? 0 then userdata σ
     else delete (window_handle_ w) (userdata σ))
    (<[p := set_window_handle_ 0 w]> (objects σ)).
Proof.
  intros Ho. unfold world_after. rewrite (on_object_run p Destroy σ w Ho).
  cbv zeta. rewrite Destroy_run. unfold state_of, trace_of.
  cbn [fst snd lead_surrogate this].
  destruct (window_handle_ w =? 0) eqn:Hh; cbn [app released this];
    [| reflexivity].
  apply Z.eqb_eq in Hh. destruct w as [h d wd ht tr k n].
  cbn in Hh. subst h. reflexivity.
Qed.

(** C8.  [Destroy] requests native destruction and clears the handle
    when a handle is stored, and in either case then asks to unregister
    the window class.  Afterwards no handle is stored, so a second
    [Destroy] destroys nothing, only repeats the unregistration request,
    and leaves the object, and the process around it, exactly as the
    first left them. *)
Theorem C8_Destroy_is_idempotent s σ p :
  let once := Destroy s in
  let twice := Destroy (state_of once) in
  trace_of once =
    (if window_handle_ (this s) =? 0 then []
     else [Call (DestroyWindow (window_handle_ (this s)))])
    ++ [Call (UnregisterClass (window_class_name_ (this s)))]
  /\ window_handle_ (this (state_of once)) = 0
  /\ state_of twice = state_of once
  /\ trace_of twice = [Call (UnregisterClass (window_class_name_ (this s)))]
  /\ world_after (on_object p Destroy) (world_after (on_object p Destroy) σ)
     = world_after (on_object p Destroy) σ.
Proof.
  cbv zeta. rewrite (Destroy_run s).
  unfold state_of at 2 3 4 5, trace_of at 1. cbn [fst snd].
  assert (Hworld :
    world_after (on_object p Destroy) (world_after (on_object p Destroy) σ)
    = world_after (on_object p Destroy) σ).
  { destruct (objects σ !! p) as [w |] eqn:Ho.
    - rewrite (Destroy_in_process p σ w Ho).
      erewrite Destroy_in_process by (cbn [objects]; apply lookup_insert_eq).
      cbn [static_lead_surrogate userdata objects window_handle_
           set_window_handle_ Z.eqb].
      rewrite insert_insert_eq. reflexivity.
    - unfold world_after, on_object. rewrite Ho, Ho. reflexivity. }
  destruct (window_handle_ (this s) =? 0) eqn:Hh.
  - rewrite Destroy_run, Hh.
    repeat split; try reflexivity; [apply Z.eqb_eq, Hh | exact Hworld].
  - rewrite Destroy_run. cbn [this set_window_handle_ window_handle_
      window_class_name_ lead_surrogate Z.eqb].
    repeat split; try reflexivity. exact Hworld.
Qed.

(** ** The process *)

Ltac step_W :=
  cbv beta iota delta
    [mbind W_bind mret W_ret native_call GetThisFromHandle GetWindowLongPtr
     SetWindowLongPtr free_object];
  cbn [static_lead_surrogate userdata objects app default from_option id].

Ltac unfold_WndProc := unfold WndProc, DefaultProc.
Ltac unfold_deliver := cbn [deliver].
Ltac unfold_InitializeChild :=
  unfold InitializeChild, InitializeChild_prologue, NativeCreateWindowEx.
Ltac unfold_creation := unfold InitializeChild, NativeCreateWindowEx.
Ltac unfold_destructor := unfold destructor.

Section ProcessFacts.

Variable GetDpiForHWND : Z -> Z.
Variable MapVirtualKey : Z -> Z -> Z.
Variable DefWindowProc_result : Z -> Z -> Z -> Z -> Z.
Variable NarrowToWide : string -> string.

Local Abbreviation MessageHandler :=
  (MessageHandler GetDpiForHWND MapVirtualKey DefWindowProc_result).
Local Abbreviation WndProc :=
  (WndProc GetDpiForHWND MapVirtualKey DefWindowProc_result).
Local Abbreviation deliver :=
  (deliver GetDpiForHWND MapVirtualKey DefWindowProc_result).
Local Abbreviation InitializeChild :=
  (InitializeChild GetDpiForHWND MapVirtualKey DefWindowProc_result
     NarrowToWide).
Local Abbreviation InitializeChild_prologue :=
  (InitializeChild_prologue NarrowToWide).

(** A message for a handle whose slot holds a live object runs the
    handler on that object and on the shared static. *)
Lemma WndProc_dispatch window message wparam lparam params σ p w :
  message <> WM_NCCREATE ->
  userdata σ !! window = Some p ->
  p <> 0 ->
  objects σ !! p = Some w ->
  WndProc window message wparam lparam params σ =
  let r := MessageHandler window message wparam lparam
             (mkHState (static_lead_surrogate σ) w) in
  Some (result_of r,
        mkWorld (lead_surrogate (state_of r)) (userdata σ)
          (<[p := this (state_of r)]> (objects σ)),
        trace_of r).
Proof.
  intros Hm Hu Hp Ho. unfold_WndProc.
  apply Z.eqb_neq in Hm. rewrite Hm. step_W. rewrite Hu.
  cbn [default from_option id].
  apply Z.eqb_neq in Hp. rewrite Hp. cbn [negb].
  rewrite (on_object_run _ _ _ _ Ho). cbv zeta.
  rewrite MessageHandler_releases_nothing. reflexivity.
Qed.

(** A message for a handle with no slot goes to default handling. *)
Lemma WndProc_unknown window message wparam lparam params σ :
  message <> WM_NCCREATE ->
  userdata σ !! window = None ->
  WndProc window message wparam lparam params σ =
  Some (DefWindowProc_result window message wparam lparam, σ,
        [Call (DefWindowProc window message wparam lparam)]).
Proof.
  intros Hm Hu. unfold_WndProc.
  apply Z.eqb_neq in Hm. rewrite Hm. step_W. rewrite Hu. reflexivity.
Qed.

(** The creation message fills the slot of the new handle and records
    the handle on the object the creation parameter points to. *)
Lemma WndProc_create window wparam lparam p σ w :
  objects σ !! p = Some w ->
  WndProc window WM_NCCREATE wparam lparam p σ =
  Some (DefWindowProc_result window WM_NCCREATE wparam lparam,
        mkWorld (static_lead_surrogate σ) (<[window := p]> (userdata σ))
          (<[p := set_window_handle_ window w]> (objects σ)),
        [Call (DefWindowProc window WM_NCCREATE wparam lparam)]).
Proof.
  intros Ho. unfold_WndProc. cbn [Z.eqb Pos.eqb WM_NCCREATE]. step_W.
  rewrite (on_object_run p _ _ w) by exact Ho. reflexivity.
Qed.

Lemma deliver_unknown window msgs σ :
  no_creation_message msgs ->
  userdata σ !! window = None ->
  deliver window msgs σ = Some (tt, σ, defaulted window msgs).
Proof.
  intros Hmsgs Hu.
  induction Hmsgs as [| [[message wparam] lparam] msgs Hm _ IH].
  - reflexivity.
  - unfold_deliver. step_W. cbn [fst snd] in Hm.
    rewrite (WndProc_unknown _ _ _ _ _ _ Hm Hu), IH. reflexivity.
Qed.

(** Messages for a handle whose slot holds a live object change that
    object only, and neither its handle nor its class name. *)
Lemma deliver_known window msgs : forall σ p w,
  no_creation_message msgs ->
  userdata σ !! window = Some p ->
  p <> 0 ->
  objects σ !! p = Some w ->
  exists σ' t w',
    deliver window msgs σ = Some (tt, σ', t)
    /\ userdata σ' = userdata σ
    /\ objects σ' = <[p := w']> (objects σ)
    /\ window_handle_ w' = window_handle_ w
    /\ window_class_name_ w' = window_class_name_ w.
Proof.
  induction msgs as [| [[message wparam] lparam] msgs IH];
    intros σ p w Hmsgs Hu Hp Ho.
  - exists σ, [], w. repeat split; try reflexivity.
    symmetry. apply insert_id, Ho.
  - inversion Hmsgs as [| m ms Hm Hrest]; subst. cbn [fst snd] in Hm.
    unfold_deliver. step_W.
    rewrite (WndProc_dispatch _ _ _ _ _ _ _ _ Hm Hu Hp Ho). cbv zeta.
    set (r := MessageHandler window message wparam lparam _).
    destruct (MessageHandler_keeps_handle GetDpiForHWND MapVirtualKey
                DefWindowProc_result window message wparam lparam
                (mkHState (static_lead_surrogate σ) w)) as [Hh Hn].
    fold r in Hh, Hn. cbn [this] in Hh, Hn.
    destruct (IH (mkWorld (lead_surrogate (state_of r)) (userdata σ)
                    (<[p := this (state_of r)]> (objects σ)))
                p (this (state_of r)) Hrest Hu Hp)
      as (σ' & t & w' & Hrun & Hu' & Ho' & Hh' & Hn').
    { cbn [objects]. apply lookup_insert_eq. }
    rewrite Hrun. exists σ', (trace_of r ++ t), w'.
    cbn [userdata objects] in Hu', Ho'.
    repeat split; try assumption; try congruence.
    rewrite Ho'. apply insert_insert_eq.
Qed.

Lemma InitializeChild_prologue_run this_ title σ w :
  objects σ !! this_ = Some w ->
  let old := window_handle_ w in
  let name := NarrowToWide title in
  InitializeChild_prologue this_ title σ =
  Some ((name, name),
        mkWorld (static_lead_surrogate σ)
          (if old =? 0 then userdata σ else delete old (userdata σ))
          (<[this_ := set_window_class_name_ name
                        (set_window_handle_ 0 w)]> (objects σ)),
        ((if old =? 0 then [] else [Call (DestroyWindow old)])
         ++ [Call (UnregisterClass (window_class_name_ w))])
        ++ [Call (RegisterClass name)]).
Proof.
  intros Ho. cbv zeta. unfold_InitializeChild. step_W.
  rewrite (on_object_run this_ Destroy σ w Ho). cbv zeta.
  rewrite Destroy_run. unfold result_of, state_of, trace_of.
  cbn [fst snd lead_surrogate this].
  destruct (window_handle_ w =? 0) eqn:Hh.
  - cbn [app released].
    erewrite on_object_run by (cbn [objects]; apply lookup_insert_eq).
    cbv zeta. unfold RegisterWindowClass. step_M.
    cbn [static_lead_surrogate userdata objects released app].
    rewrite insert_insert_eq. apply Z.eqb_eq in Hh.
    destruct w as [h d wd ht tr k n]. cbn in Hh. subst h. reflexivity.
  - cbn [app released].
    erewrite on_object_run by (cbn [objects]; apply lookup_insert_eq).
    cbv zeta. unfold RegisterWindowClass. step_M.
    cbn [static_lead_surrogate userdata objects released app].
    rewrite insert_insert_eq. reflexivity.
Qed.

(** *** Re-initialisation *)

(** C10.  [InitializeChild] first runs the whole of [Destroy]: a handle
    the object still holds is destroyed and cleared, and the class is
    unregistered, before the new class is registered and the creation
    request is made.  The stored handle is null from then on: at the
    request, and while messages that precede the creation message are
    handled; the creation message records the new handle, and the
    messages after it leave it in place.  When the request fails the
    stored handle stays null.  The object thus never holds an old and a
    new handle at once. *)
Theorem C10_InitializeChild_destroys_first
    this_ title width height hwnd cs before after σ w :
  objects σ !! this_ = Some w ->
  this_ <> 0 ->
  hwnd <> 0 ->
  userdata σ !! hwnd = None ->
  no_creation_message before ->
  no_creation_message after ->
  let old := window_handle_ w in
  let name := NarrowToWide title in
  let teardown :=
    (if old =? 0 then [] else [Call (DestroyWindow old)])
    ++ [Call (UnregisterClass (window_class_name_ w))] in
  let request := Call (CreateWindowEx name name width height this_) in
  let created := Call (DefWindowProc hwnd WM_NCCREATE 0 cs) in
  exists σ1 σ2 σ3 t_after,
    InitializeChild_prologue this_ title σ =
      Some ((name, name), σ1, teardown ++ [Call (RegisterClass name)])
    /\ handle_of this_ σ1 = Some 0
    /\ (old <> 0 -> userdata σ1 !! old = None)
    /\ deliver hwnd before σ1 = Some (tt, σ1, defaulted hwnd before)
    /\ WndProc hwnd WM_NCCREATE 0 cs this_ σ1 =
         Some (DefWindowProc_result hwnd WM_NCCREATE 0 cs, σ2, [created])
    /\ handle_of this_ σ2 = Some hwnd
    /\ userdata σ2 !! hwnd = Some this_
    /\ deliver hwnd after σ2 = Some (tt, σ3, t_after)
    /\ handle_of this_ σ3 = Some hwnd
    /\ InitializeChild this_ title width height
         (Created hwnd cs before after) σ =
       Some (tt, σ3,
             (teardown ++ [Call (RegisterClass name)])
             ++ request :: defaulted hwnd before ++ created :: t_after)
    /\ forall error,
         InitializeChild this_ title width height (Failed error) σ =
         Some (tt, σ1,
               (teardown ++ [Call (RegisterClass name)])
               ++ [request; Call (OutputDebugString error)]).
Proof.
  intros Ho Hthis Hhwnd Hfresh Hbefore Hafter. cbv zeta.
  pose proof (InitializeChild_prologue_run this_ title σ w Ho) as Hpro.
  cbv zeta in Hpro.
  set (name := NarrowToWide title) in *.
  set (teardown := (if window_handle_ w =? 0 then []
                    else [Call (DestroyWindow (window_handle_ w))])
                   ++ [Call (UnregisterClass (window_class_name_ w))]) in *.
  set (w1 := set_window_class_name_ name (set_window_handle_ 0 w)) in *.
  set (σ1 := mkWorld (static_lead_surrogate σ)
               (if window_handle_ w =? 0 then userdata σ
                else delete (window_handle_ w) (userdata σ))
               (<[this_ := w1]> (objects σ))) in *.
  assert (Ho1 : objects σ1 !! this_ = Some w1)
    by (cbn [σ1 objects]; apply lookup_insert_eq).
  assert (Hfresh1 : userdata σ1 !! hwnd = None).
  { cbn [σ1 userdata]. destruct (window_handle_ w =? 0); [exact Hfresh |].
    rewrite lookup_delete. case_decide; [reflexivity | exact Hfresh]. }
  pose proof (deliver_unknown hwnd before σ1 Hbefore Hfresh1) as Hrun_before.
  pose proof (WndProc_create hwnd 0 cs this_ σ1 w1 Ho1) as Hcreate.
  set (σ2 := mkWorld (static_lead_surrogate σ1)
               (<[hwnd := this_]> (userdata σ1))
               (<[this_ := set_window_handle_ hwnd w1]> (objects σ1))) in *.
  assert (Ho2 : objects σ2 !! this_ = Some (set_window_handle_ hwnd w1))
    by (cbn [σ2 objects]; apply lookup_insert_eq).
  assert (Hu2 : userdata σ2 !! hwnd = Some this_)
    by (cbn [σ2 userdata]; apply lookup_insert_eq).
  destruct (deliver_known hwnd after σ2 this_ _ Hafter Hu2 Hthis Ho2)
    as (σ3 & t_after & w3 & Hrun_after & Hu3 & Ho3 & Hh3 & _).
  exists σ1, σ2, σ3, t_after.
  split; [exact Hpro |].
  split; [unfold handle_of; rewrite Ho1; reflexivity |].
  split.
  { intros Hold. cbn [σ1 userdata]. apply Z.eqb_neq in Hold.
    rewrite Hold. apply lookup_delete_eq. }
  split; [exact Hrun_before |].
  split; [exact Hcreate |].
  split; [unfold handle_of; rewrite Ho2; reflexivity |].
  split; [exact Hu2 |].
  split; [exact Hrun_after |].
  split.
  { unfold handle_of. rewrite Ho3, lookup_insert_eq. cbn [fmap option_fmap
      option_map]. rewrite Hh3. reflexivity. }
  split.
  - unfold_creation. step_W. rewrite Hpro. step_W.
    rewrite Hrun_before, Hcreate, Hrun_after.
    apply Z.eqb_neq in Hhwnd. rewrite Hhwnd.
    cbn [app]. rewrite !app_nil_r. reflexivity.
  - intros error. unfold_creation. step_W. rewrite Hpro. step_W.
    reflexivity.
Qed.

(** *** The lead surrogate across windows *)

Lemma WndProc_known_outcome window message wparam lparam σ p w :
  message <> WM_NCCREATE ->
  userdata σ !! window = Some p ->
  p <> 0 ->
  objects σ !! p = Some w ->
  let r := MessageHandler window message wparam lparam
             (mkHState (static_lead_surrogate σ) w) in
  world_after (WndProc window message wparam lparam 0) σ =
    mkWorld (lead_surrogate (state_of r)) (userdata σ)
      (<[p := this (state_of r)]> (objects σ))
  /\ emitted_by (WndProc window message wparam lparam 0) σ =
       emitted (trace_of r).
Proof.
  intros Hm Hu Hp Ho. cbv zeta. unfold world_after, emitted_by.
  rewrite (WndProc_dispatch _ _ _ _ _ _ _ _ Hm Hu Hp Ho). cbv zeta.
  split; reflexivity.
Qed.

Lemma destructor_run p σ w :
  objects σ !! p = Some w ->
  destructor p σ =
  Some (tt,
        mkWorld (static_lead_surrogate σ)
          (if window_handle_ w =? 0 then userdata σ
           else delete (window_handle_ w) (userdata σ))
          (delete p (objects σ)),
        (if window_handle_ w =? 0 then []
         else [Call (DestroyWindow (window_handle_ w))])
        ++ [Call (UnregisterClass (window_class_name_ w))]).
Proof.
  intros Ho. unfold_destructor. step_W.
  rewrite (on_object_run p Destroy σ w Ho). cbv zeta.
  rewrite Destroy_run. unfold result_of, state_of, trace_of.
  cbn [fst snd lead_surrogate this]. step_W.
  rewrite delete_insert_eq, app_nil_r.
  destruct (window_handle_ w =? 0); reflexivity.
Qed.

(** C7, as the code has it.  The pending lead surrogate is one value for
    the whole process, not a field of the window: a lead surrogate
    delivered to the handler of window A is what a trail surrogate later
    delivered to the handler of another window B merges with, and it is
    still pending, and still merges, after A has been destroyed and
    freed.  A's message leaves B's own fields untouched. *)
Theorem C7_lead_surrogate_is_shared_by_all_windows
    σ hA hB pA pB wA wB messageA wparamA lparamA messageB wparamB lparamB :
  hA <> hB ->
  userdata σ !! hA = Some pA ->
  userdata σ !! hB = Some pB ->
  pA <> 0 ->
  pB <> 0 ->
  pA <> pB ->
  objects σ !! pA = Some wA ->
  objects σ !! pB = Some wB ->
  window_handle_ wA = hA ->
  is_char_message messageA = true ->
  high_surrogate (to_uint32 wparamA) ->
  messageB = WM_CHAR \/ messageB = WM_SYSCHAR ->
  low_surrogate (to_uint32 wparamB) ->
  let merged := surrogate_pair (to_uint32 wparamA) (to_uint32 wparamB) in
  let to_A := WndProc hA messageA wparamA lparamA 0 in
  let to_B := WndProc hB messageB wparamB lparamB 0 in
  let σ1 := world_after to_A σ in
  let σ2 := world_after (destructor pA) σ1 in
  static_lead_surrogate σ1 = to_uint32 wparamA
  /\ objects σ1 !! pB = Some wB
  /\ List.filter is_OnChar (emitted_by to_B σ1) = [OnChar merged]
  /\ static_lead_surrogate (world_after to_B σ1) = 0
  /\ objects σ2 !! pA = None
  /\ static_lead_surrogate σ2 = to_uint32 wparamA
  /\ List.filter is_OnChar (emitted_by to_B σ2) = [OnChar merged].
Proof.
  intros Hh HuA HuB HpA HpB Hp HoA HoB HhA HmA Hhigh HmB Hlow. cbv zeta.
  assert (HmB' : is_char_message messageB = true)
    by (destruct HmB as [-> | ->]; reflexivity).
  destruct (WndProc_known_outcome hA messageA wparamA lparamA σ pA wA
              (char_message_not_creation _ HmA) HuA HpA HoA) as [Hσ1 _].
  cbv zeta in Hσ1. rewrite Hσ1. clear Hσ1.
  set (sA := mkHState (static_lead_surrogate σ) wA).
  destruct (lead_surrogate_falls_through GetDpiForHWND MapVirtualKey
              DefWindowProc_result hA messageA wparamA lparamA sA HmA Hhigh)
    as [Hlead _]. cbv zeta in Hlead.
  destruct (MessageHandler_keeps_handle GetDpiForHWND MapVirtualKey
              DefWindowProc_result hA messageA wparamA lparamA sA)
    as [Hkeep _].
  set (rA := MessageHandler hA messageA wparamA lparamA sA) in *.
  set (σ1 := mkWorld (lead_surrogate (state_of rA)) (userdata σ)
               (<[pA := this (state_of rA)]> (objects σ))).
  assert (Hnz : to_uint32 wparamA <> 0)
    by (unfold high_surrogate in Hhigh; lia).
  assert (Hfilter : forall s,
    lead_surrogate s = to_uint32 wparamA ->
    List.filter is_OnChar
      (emitted (trace_of (MessageHandler hB messageB wparamB lparamB s))) =
    [OnChar (surrogate_pair (to_uint32 wparamA) (to_uint32 wparamB))]
    /\ lead_surrogate
         (state_of (MessageHandler hB messageB wparamB lparamB s)) = 0).
  { intros s Hs.
    destruct (trail_surrogate_merges GetDpiForHWND MapVirtualKey
                DefWindowProc_result hB messageB wparamB lparamB s HmB')
      as [Hl He]; [rewrite Hs; exact Hnz | exact Hlow |].
    cbv zeta in He. rewrite He, Hs, List.filter_app. split; [| exact Hl].
    destruct HmB as [-> | ->];
      destruct (keycode_for_char_message_ (this s) =? 0); reflexivity. }
  assert (HoB1 : objects σ1 !! pB = Some wB)
    by (cbn [σ1 objects]; rewrite lookup_insert_ne by exact Hp; exact HoB).
  destruct (WndProc_known_outcome hB messageB wparamB lparamB σ1 pB wB
              (char_message_not_creation _ HmB') HuB HpB HoB1) as [Hw1 He1].
  cbv zeta in Hw1, He1.
  destruct (Hfilter (mkHState (static_lead_surrogate σ1) wB) Hlead)
    as [Hf1 Hl1].
  assert (HoA1 : objects σ1 !! pA = Some (this (state_of rA)))
    by (cbn [σ1 objects]; apply lookup_insert_eq).
  unfold world_after at 2 3 4. rewrite (destructor_run pA σ1 _ HoA1).
  assert (Hkeep' : window_handle_ (this (state_of rA)) = hA)
    by (rewrite Hkeep; exact HhA).
  rewrite Hkeep'.
  set (σ2 := mkWorld (static_lead_surrogate σ1)
               (if hA =? 0 then userdata σ1 else delete hA (userdata σ1))
               (delete pA (objects σ1))).
  assert (HuB2 : userdata σ2 !! hB = Some pB).
  { cbn [σ2 userdata σ1]. destruct (hA =? 0); [exact HuB |].
    rewrite lookup_delete_ne by exact Hh. exact HuB. }
  assert (HoB2 : objects σ2 !! pB = Some wB)
    by (cbn [σ2 objects]; rewrite lookup_delete_ne by exact Hp; exact HoB1).
  destruct (WndProc_known_outcome hB messageB wparamB lparamB σ2 pB wB
              (char_message_not_creation _ HmB') HuB2 HpB HoB2) as [_ He2].
  cbv zeta in He2.
  destruct (Hfilter (mkHState (static_lead_surrogate σ2) wB) Hlead)
    as [Hf2 _].
  split; [exact Hlead |].
  split; [exact HoB1 |].
  split; [rewrite He1; exact Hf1 |].
  split; [rewrite Hw1; exact Hl1 |].
  split; [cbn [σ2 objects]; apply lookup_delete_eq |].
  split; [exact Hlead |].
  rewrite He2. exact Hf2.
Qed.

End ProcessFacts.

(** ** The handler at concrete inputs *)

(** C1, on the code.  The handler stores a lead surrogate but does not
    stop there: a plain character message carrying the lead surrogate
    U+D83D invokes the text hook with the bare surrogate, and, when a key
    code is pending, also emits the key event for it and clears the
    record. *)
Theorem C1_lead_surrogate_is_emitted :
  let idle := mkHState 0 (sample_window 7 "A") in
  let pressed :=
    mkHState 0 (set_keycode_for_char_message_ 0x41 (sample_window 7 "A")) in
  emitted (trace_of (sample_MessageHandler 7 WM_CHAR 0xD83D 0x1E0000 idle))
    = [OnChar 0xD83D]
  /\ emitted
       (trace_of (sample_MessageHandler 7 WM_CHAR 0xD83D 0x1E0000 pressed))
     = [OnChar 0xD83D; OnKey 0x41 0x1E WM_KEYDOWN 0xD83D]
  /\ state_of (sample_MessageHandler 7 WM_CHAR 0xD83D 0x1E0000 pressed)
     = mkHState 0xD83D (sample_window 7 "A").
Proof. cbv zeta. repeat split; vm_compute; reflexivity. Qed.

(** C2, on the code.  The pair U+D83D, U+DE00 delivered in two plain
    character messages invokes the text hook twice: once with the bare
    lead surrogate and once with the merged code point U+1F600.  The
    merge itself is right and clears the pending lead. *)
Theorem C2_surrogate_pair_emits_two_chars :
  let idle := mkHState 0 (sample_window 7 "A") in
  let run :=
    sample_feed 7 [(WM_CHAR, 0xD83D, 0); (WM_CHAR, 0xDE00, 0)] idle in
  List.filter is_OnChar (emitted (snd run)) = [OnChar 0xD83D; OnChar 0x1F600]
  /\ surrogate_pair 0xD83D 0xDE00 = 0x1F600
  /\ lead_surrogate (fst run) = 0.
Proof. cbv zeta. repeat split; vm_compute; reflexivity. Qed.

(** C3 fails on the code: the letter [a] arriving while the lead
    surrogate U+D83D is pending leaves it pending, and the trail
    surrogate U+DE00 that follows the letter merges with it. *)
Lemma C3_pending_lead_survives_a_letter :
  lead_surrogate
    (state_of (sample_MessageHandler 7 WM_CHAR 0x61 0
                 (mkHState 0xD83D (sample_window 7 "A")))) = 0xD83D
  /\ emitted
       (snd (sample_feed 7
               [(WM_CHAR, 0xD83D, 0); (WM_CHAR, 0x61, 0);
                (WM_CHAR, 0xDE00, 0)]
               (mkHState 0 (sample_window 7 "A"))))
     = [OnChar 0xD83D; OnChar 0x61; OnChar 0x1F600].
Proof. split; vm_compute; reflexivity. Qed.

(** C7 fails on the code: a lead surrogate delivered to the window of
    handle 11 merges with the trail surrogate delivered next to the
    window of handle 22, which on its own would have been passed through;
    and it still does after the first window's object was destroyed and
    freed. *)
Lemma C7_lead_of_one_window_merges_in_another :
  let to_A := sample_WndProc 11 WM_CHAR 0xD83D 0 0 in
  let to_B := sample_WndProc 22 WM_CHAR 0xDE00 0 0 in
  emitted_by to_B two_windows = [OnChar 0xDE00]
  /\ emitted_by to_B (world_after to_A two_windows) = [OnChar 0x1F600]
  /\ objects (world_after (destructor 1000) (world_after to_A two_windows))
       !! 1000 = None
  /\ emitted_by to_B
       (world_after (destructor 1000) (world_after to_A two_windows))
     = [OnChar 0x1F600].
Proof. cbv zeta. repeat split; vm_compute; reflexivity. Qed.

(** ** Instances of the conditional statements *)

(** The letter [a] while U+D83D is pending: C3 at a concrete message. *)
Lemma C3_witness :
  is_char_message WM_CHAR = true
  /\ ~ high_surrogate (to_uint32 0x61)
  /\ ~ low_surrogate (to_uint32 0x61)
  /\ lead_surrogate
       (state_of (sample_MessageHandler 7 WM_CHAR 0x61 0
                    (mkHState 0xD83D (sample_window 7 "A")))) = 0xD83D.
Proof.
  assert (Hm : is_char_message WM_CHAR = true) by reflexivity.
  assert (Hh : ~ high_surrogate (to_uint32 0x61))
    by (change (to_uint32 0x61) with 0x61; unfold high_surrogate; lia).
  assert (Hl : ~ low_surrogate (to_uint32 0x61))
    by (change (to_uint32 0x61) with 0x61; unfold low_surrogate; lia).
  split; [exact Hm | split; [exact Hh | split; [exact Hl |]]].
  exact (proj1 (C3_other_code_point_keeps_pending_lead
                  sample_GetDpiForHWND sample_MapVirtualKey
                  sample_DefWindowProc_result 7 WM_CHAR 0x61 0
                  (mkHState 0xD83D (sample_window 7 "A")) Hm Hh Hl)).
Defined.

(** The key [A] pressed, then its character: C4 at a concrete key. *)
Lemma C4_witness :
  let idle := mkHState 0 (sample_window 7 "A") in
  let r := sample_MessageHandler 7 WM_KEYDOWN 0x41 0x1E0000 idle in
  let r' := sample_MessageHandler 7 WM_CHAR 0x61 0x1E0000 (state_of r) in
  (WM_KEYDOWN = WM_KEYDOWN \/ WM_KEYDOWN = WM_SYSKEYDOWN)
  /\ produces_character sample_MapVirtualKey 0x41 = true
  /\ emitted (trace_of r) = []
  /\ List.filter is_OnKey (emitted (trace_of r')) =
       [OnKey 0x41 0x1E WM_KEYDOWN 0x61]
  /\ keycode_for_char_message_ (this (state_of r')) = 0.
Proof.
  cbv zeta.
  pose proof (C4_key_down_correlates_with_char
                sample_GetDpiForHWND sample_MapVirtualKey
                sample_DefWindowProc_result 7 WM_KEYDOWN 0x41 0x1E0000
                (mkHState 0 (sample_window 7 "A"))
                (or_introl eq_refl)) as H.
  cbv zeta in H.
  change (produces_character sample_MapVirtualKey 0x41) with true in H.
  destruct H as (He & _ & _ & Hnext).
  assert (Hkey : keycode_of_wparam 0x41 <> 0) by discriminate.
  destruct (Hnext Hkey WM_CHAR 0x61 0x1E0000 eq_refl) as [Hk Hc].
  split; [left; reflexivity | split; [reflexivity | split; [exact He |]]].
  split; [exact Hk | exact Hc].
Defined.

(** The dead key ['] with its key code pending: C5 at a concrete
    message. *)
Lemma C5_witness :
  let pressed :=
    mkHState 0 (set_keycode_for_char_message_ 0xDE (sample_window 7 "A")) in
  let r := sample_MessageHandler 7 WM_DEADCHAR 0x27 0x280000 pressed in
  is_char_message WM_DEADCHAR = true
  /\ List.filter is_OnChar (emitted (trace_of r)) = []
  /\ List.filter is_OnKey (emitted (trace_of r)) =
       [OnKey 0xDE 0x28 WM_KEYDOWN 0x27].
Proof.
  cbv zeta.
  pose proof (C5_char_iff_plain_and_not_backspace
                sample_GetDpiForHWND sample_MapVirtualKey
                sample_DefWindowProc_result 7 WM_DEADCHAR 0x27 0x280000
                (mkHState 0 (set_keycode_for_char_message_ 0xDE
                               (sample_window 7 "A")))
                eq_refl) as H.
  cbv zeta in H. destruct H as (_ & _ & Hdead).
  destruct (Hdead (or_introl eq_refl)) as [Hc Hk].
  split; [reflexivity | split; [exact Hc |]].
  apply Hk. discriminate.
Defined.

(** Two windows, a surrogate pair split between them: C7 at a concrete
    process. *)
Lemma C7_witness :
  let to_A := sample_WndProc 11 WM_CHAR 0xD83D 0 0 in
  let to_B := sample_WndProc 22 WM_CHAR 0xDE00 0 0 in
  userdata two_windows !! 11 = Some 1000
  /\ userdata two_windows !! 22 = Some 2000
  /\ objects two_windows !! 1000 = Some (sample_window 11 "A")
  /\ objects two_windows !! 2000 = Some (sample_window 22 "B")
  /\ high_surrogate (to_uint32 0xD83D)
  /\ low_surrogate (to_uint32 0xDE00)
  /\ List.filter is_OnChar (emitted_by to_B (world_after to_A two_windows))
     = [OnChar (surrogate_pair (to_uint32 0xD83D) (to_uint32 0xDE00))].
Proof.
  cbv zeta.
  assert (HuA : userdata two_windows !! 11 = Some 1000) by reflexivity.
  assert (HuB : userdata two_windows !! 22 = Some 2000) by reflexivity.
  assert (HoA : objects two_windows !! 1000 = Some (sample_window 11 "A"))
    by reflexivity.
  assert (HoB : objects two_windows !! 2000 = Some (sample_window 22 "B"))
    by reflexivity.
  assert (Hh : high_surrogate (to_uint32 0xD83D))
    by (change (to_uint32 0xD83D) with 0xD83D; unfold high_surrogate; lia).
  assert (Hl : low_surrogate (to_uint32 0xDE00))
    by (change (to_uint32 0xDE00) with 0xDE00; unfold low_surrogate; lia).
  repeat (split; [assumption |]).
  exact (proj1 (proj2 (proj2
    (C7_lead_surrogate_is_shared_by_all_windows
       sample_GetDpiForHWND sample_MapVirtualKey sample_DefWindowProc_result
       two_windows 11 22 1000 2000 (sample_window 11 "A")
       (sample_window 22 "B") WM_CHAR 0xD83D 0 WM_CHAR 0xDE00 0
       ltac:(discriminate) HuA HuB ltac:(discriminate) ltac:(discriminate)
       ltac:(discriminate) HoA HoB eq_refl eq_refl Hh
       (or_introl eq_refl) Hl)))).
Defined.

(** Re-initialising the first of two windows: C10 at a concrete
    process. *)
Lemma C10_witness :
  let before := [(0x24, 0, 0)] in
  let after := [(WM_SIZE, 0, 0x02580320)] in
  objects two_windows !! 1000 = Some (sample_window 11 "A")
  /\ userdata two_windows !! 33 = None
  /\ no_creation_message before
  /\ no_creation_message after
  /\ exists σ1 σ3 t,
       InitializeChild_prologue sample_NarrowToWide 1000 "T" two_windows =
         Some (("T"%string, "T"%string), σ1,
               [Call (DestroyWindow 11); Call (UnregisterClass "A");
                Call (RegisterClass "T")])
       /\ handle_of 1000 σ1 = Some 0
       /\ sample_InitializeChild 1000 "T" 800 600
            (Created 33 5 before after) two_windows = Some (tt, σ3, t)
       /\ handle_of 1000 σ3 = Some 33.
Proof.
  cbv zeta.
  assert (Ho : objects two_windows !! 1000 = Some (sample_window 11 "A"))
    by reflexivity.
  assert (Hf : userdata two_windows !! 33 = None) by reflexivity.
  assert (Hb : no_creation_message [(0x24, 0, 0)])
    by (repeat constructor; discriminate).
  assert (Ha : no_creation_message [(WM_SIZE, 0, 0x02580320)])
    by (repeat constructor; discriminate).
  repeat (split; [assumption |]).
  destruct (C10_InitializeChild_destroys_first
              sample_GetDpiForHWND sample_MapVirtualKey
              sample_DefWindowProc_result sample_NarrowToWide
              1000 "T" 800 600 33 5 [(0x24, 0, 0)]
              [(WM_SIZE, 0, 0x02580320)] two_windows
              (sample_window 11 "A") Ho ltac:(discriminate)
              ltac:(discriminate) Hf Hb Ha)
    as (σ1 & σ2 & σ3 & t & Hpro & Hh1 & _ & _ & _ & _ & _ & _ & Hh3 & Hrun
        & _).
  exists σ1, σ3. eexists.
  split; [exact Hpro | split; [exact Hh1 | split; [exact Hrun | exact Hh3]]].
Defined.

(** * Further properties *)

(** ** Packed parameters *)

Lemma LOWORD_mod l : LOWORD l = l mod 2 ^ 16.
Proof.
  unfold LOWORD. change 0xffff with (Z.ones 16). apply Z.land_ones. lia.
Qed.

Lemma HIWORD_mod l : HIWORD l = (l / 2 ^ 16) mod 2 ^ 16.
Proof.
  unfold HIWORD. change 0xffff with (Z.ones 16).
  rewrite Z.land_ones, Z.shiftr_div_pow2 by lia. reflexivity.
Qed.

Lemma LOWORD_packed lo hi upper : LOWORD (packed lo hi upper) = lo mod 2 ^ 16.
Proof.
  rewrite LOWORD_mod. unfold packed.
  pose proof (Z.mod_pos_bound lo (2 ^ 16) ltac:(lia)).
  pose proof (Z.mod_pos_bound hi (2 ^ 16) ltac:(lia)).
  replace (lo mod 2 ^ 16 + 2 ^ 16 * (hi mod 2 ^ 16) + 2 ^ 32 * upper)
    with (lo mod 2 ^ 16 + (hi mod 2 ^ 16 + 2 ^ 16 * upper) * 2 ^ 16) by lia.
  rewrite Z.mod_add by lia. apply Z.mod_small. lia.
Qed.

Lemma HIWORD_packed lo hi upper : HIWORD (packed lo hi upper) = hi mod 2 ^ 16.
Proof.
  rewrite HIWORD_mod. unfold packed.
  pose proof (Z.mod_pos_bound lo (2 ^ 16) ltac:(lia)).
  pose proof (Z.mod_pos_bound hi (2 ^ 16) ltac:(lia)).
  replace (lo mod 2 ^ 16 + 2 ^ 16 * (hi mod 2 ^ 16) + 2 ^ 32 * upper)
    with (lo mod 2 ^ 16 + (hi mod 2 ^ 16 + 2 ^ 16 * upper) * 2 ^ 16) by lia.
  rewrite Z.div_add by lia. rewrite (Z.div_small (lo mod 2 ^ 16)) by lia.
  rewrite Z.add_0_l.
  replace (hi mod 2 ^ 16 + 2 ^ 16 * upper)
    with (hi mod 2 ^ 16 + upper * 2 ^ 16) by lia.
  rewrite Z.mod_add by lia. apply Z.mod_small. lia.
Qed.

Lemma to_int16_range z : - 2 ^ 15 <= to_int16 z < 2 ^ 15.
Proof.
  unfold to_int16. cbv zeta.
  pose proof (Z.mod_pos_bound z (2 ^ 16) ltac:(lia)).
  destruct (Z.ltb_spec (z mod 2 ^ 16) (2 ^ 15)); lia.
Qed.

(** A signed 16-bit value survives the trip through an unsigned field. *)
Lemma to_int16_of_field x :
  - 2 ^ 15 <= x < 2 ^ 15 -> to_int16 (x mod 2 ^ 16) = x.
Proof.
  intros Hx. unfold to_int16. cbv zeta. rewrite Z.mod_mod by lia.
  destruct (Z.ltb_spec (x mod 2 ^ 16) (2 ^ 15)) as [Hlt | Hge].
  - destruct (Z.lt_ge_cases x 0) as [Hneg | Hpos].
    + replace x with (x + 2 ^ 16 + (-1) * 2 ^ 16) in Hlt by lia.
      rewrite Z.mod_add, Z.mod_small in Hlt by lia. lia.
    + apply Z.mod_small. lia.
  - destruct (Z.lt_ge_cases x 0) as [Hneg | Hpos].
    + replace x with (x + 2 ^ 16 + (-1) * 2 ^ 16) at 1 by lia.
      rewrite Z.mod_add, Z.mod_small by lia. lia.
    + rewrite Z.mod_small in Hge by lia. lia.
Qed.

(** ** Every case of the switch at once *)

Ltac all_cases :=
  unfold MessageHandler, message_switch, case_char, case_key,
    case_button_down, case_button_up, TrackMouseLeaveEvent, HandleResize;
  split_tests.

Ltac message_numbers :=
  unfold WM_DEADCHAR, WM_SYSDEADCHAR, WM_CHAR, WM_SYSCHAR,
    kWmDpiChangedBeforeParent, WM_SIZE, WM_FONTCHANGE, WM_MOUSEMOVE,
    WM_MOUSELEAVE, WM_LBUTTONDOWN, WM_RBUTTONDOWN, WM_MBUTTONDOWN,
    WM_XBUTTONDOWN, WM_LBUTTONUP, WM_RBUTTONUP, WM_MBUTTONUP, WM_XBUTTONUP,
    WM_MOUSEWHEEL, WM_UNICHAR, WM_KEYDOWN, WM_SYSKEYDOWN, WM_KEYUP,
    WM_SYSKEYUP, WM_NCCREATE in *.

(** Two tests on the message number that cannot both succeed. *)
Ltac clash :=
  exfalso;
  repeat match goal with
         | H : (_ =? _) = true |- _ => apply Z.eqb_eq in H
         end;
  message_numbers; lia.

Lemma last_resize_app es1 es2 :
  last_resize (es1 ++ es2) =
  match last_resize es2 with
  | Some size => Some size
  | None => last_resize es1
  end.
Proof.
  induction es1 as [| e es1 IH]; cbn [app last_resize].
  - destruct (last_resize es2); reflexivity.
  - rewrite IH. destruct (last_resize es2); reflexivity.
Qed.

Lemma last_dpi_app es1 es2 :
  last_dpi (es1 ++ es2) =
  match last_dpi es2 with
  | Some dpi => Some dpi
  | None => last_dpi es1
  end.
Proof.
  induction es1 as [| e es1 IH]; cbn [app last_dpi].
  - destruct (last_dpi es2); reflexivity.
  - rewrite IH. destruct (last_dpi es2); reflexivity.
Qed.

Ltac unfold_feed := cbn [feed].

Section MoreHandlerFacts.

Variable GetDpiForHWND : Z -> Z.
Variable MapVirtualKey : Z -> Z -> Z.
Variable DefWindowProc_result : Z -> Z -> Z -> Z -> Z.

Local Abbreviation MessageHandler :=
  (MessageHandler GetDpiForHWND MapVirtualKey DefWindowProc_result).
Local Abbreviation feed :=
  (feed GetDpiForHWND MapVirtualKey DefWindowProc_result).

(** *** Size *)

(** A size message decodes the width from bits 0 to 15 and the height
    from bits 16 to 31 of its parameter, whatever lies above, stores both
    and announces them in one resize event; the query surface then
    answers what was announced.  The same message again changes nothing
    more and is announced again.  Nothing else of the window changes. *)
Theorem size_message_updates_then_announces hwnd wparam lparam s :
  let width := lparam mod 2 ^ 16 in
  let height := (lparam / 2 ^ 16) mod 2 ^ 16 in
  let r := MessageHandler hwnd WM_SIZE wparam lparam s in
  let r' := MessageHandler hwnd WM_SIZE wparam lparam (state_of r) in
  emitted (trace_of r) = [OnResize width height]
  /\ result_of (GetCurrentWidth (state_of r)) = width
  /\ result_of (GetCurrentHeight (state_of r)) = height
  /\ state_of r =
       mkHState (lead_surrogate s)
         (set_current_height_ height (set_current_width_ width (this s)))
  /\ state_of r' = state_of r
  /\ emitted (trace_of r') = [OnResize width height].
Proof.
  cbv zeta. rewrite <- LOWORD_mod, <- HIWORD_mod.
  destruct s as [lead [h d wd ht tr k n]].
  dispatch. unfold HandleResize. step_M. repeat split; reflexivity.
Qed.

(** *** Pointer position *)

(** The pointer position is decoded as two signed 16-bit numbers: a
    position packed by the sender comes out as it went in, negative
    coordinates included (the pointer left or above the client area
    while captured), whatever lies above bit 31 of the parameter.  A
    move changes nothing of the window but the leave-tracking flag. *)
Theorem pointer_position_round_trip hwnd wparam x y upper s :
  - 2 ^ 15 <= x < 2 ^ 15 ->
  - 2 ^ 15 <= y < 2 ^ 15 ->
  let r := MessageHandler hwnd WM_MOUSEMOVE wparam (packed x y upper) s in
  emitted (trace_of r) = [OnPointerMove x y]
  /\ state_of r =
       mkHState (lead_surrogate s)
         (set_tracking_mouse_leave_ true (this s)).
Proof.
  intros Hx Hy. cbv zeta. rewrite MessageHandler_mousemove.
  unfold state_of, trace_of, GET_X_LPARAM, GET_Y_LPARAM. cbn [fst snd].
  rewrite LOWORD_packed, HIWORD_packed, !to_int16_of_field by assumption.
  rewrite emitted_app.
  destruct (tracking_mouse_leave_ (this s)); split; reflexivity.
Qed.

(** *** Pointer buttons *)

(** A button-down message emits exactly one pointer-down event at the
    decoded position and leaves the window as it was.  The pointer is
    captured for the left button only.  The button reported is the
    message number itself for the left, right and middle buttons and the
    high word of [wparam] for an extended button. *)
Theorem button_down_captures_left_only hwnd message wparam lparam s :
  message = WM_LBUTTONDOWN \/ message = WM_RBUTTONDOWN
  \/ message = WM_MBUTTONDOWN \/ message = WM_XBUTTONDOWN ->
  let r := MessageHandler hwnd message wparam lparam s in
  emitted (trace_of r) =
    [OnPointerDown (GET_X_LPARAM lparam) (GET_Y_LPARAM lparam)
       (if message =? WM_XBUTTONDOWN then (wparam / 2 ^ 16) mod 2 ^ 16
        else message)]
  /\ List.filter is_capture_call (called (trace_of r)) =
       (if message =? WM_LBUTTONDOWN then [SetCapture hwnd] else [])
  /\ state_of r = s.
Proof.
  intros Hm. cbv zeta. rewrite <- HIWORD_mod.
  destruct Hm as [-> | [-> | [-> | ->]]];
    dispatch; unfold case_button_down;
    cbn [Z.eqb Pos.eqb WM_LBUTTONDOWN WM_XBUTTONDOWN WM_RBUTTONDOWN
         WM_MBUTTONDOWN];
    step_M; repeat split; reflexivity.
Qed.

(** A button-up message emits exactly one pointer-up event and leaves
    the window as it was.  The capture is released for the left button
    only.  For the left, right and middle buttons the button reported is
    the number of the up message, which is not the number the matching
    down message reported; an extended button reports the same number
    both times. *)
Theorem button_up_releases_left_only hwnd message wparam lparam s :
  message = WM_LBUTTONUP \/ message = WM_RBUTTONUP
  \/ message = WM_MBUTTONUP \/ message = WM_XBUTTONUP ->
  let r := MessageHandler hwnd message wparam lparam s in
  let button :=
    if message =? WM_XBUTTONUP then (wparam / 2 ^ 16) mod 2 ^ 16
    else message in
  emitted (trace_of r) =
    [OnPointerUp (GET_X_LPARAM lparam) (GET_Y_LPARAM lparam) button]
  /\ List.filter is_capture_call (called (trace_of r)) =
       (if message =? WM_LBUTTONUP then [ReleaseCapture] else [])
  /\ state_of r = s
  /\ (forall down,
        (message = WM_LBUTTONUP /\ down = WM_LBUTTONDOWN)
        \/ (message = WM_RBUTTONUP /\ down = WM_RBUTTONDOWN)
        \/ (message = WM_MBUTTONUP /\ down = WM_MBUTTONDOWN) ->
        emitted (trace_of (MessageHandler hwnd down wparam lparam s)) =
          [OnPointerDown (GET_X_LPARAM lparam) (GET_Y_LPARAM lparam) down]
        /\ down <> button).
Proof.
  intros Hm. cbv zeta. rewrite <- HIWORD_mod.
  split; [| split; [| split]].
  - destruct Hm as [-> | [-> | [-> | ->]]];
      dispatch; unfold case_button_up;
      cbn [Z.eqb Pos.eqb WM_LBUTTONUP WM_XBUTTONUP WM_RBUTTONUP WM_MBUTTONUP];
      step_M; reflexivity.
  - destruct Hm as [-> | [-> | [-> | ->]]];
      dispatch; unfold case_button_up;
      cbn [Z.eqb Pos.eqb WM_LBUTTONUP WM_XBUTTONUP WM_RBUTTONUP WM_MBUTTONUP];
      step_M; reflexivity.
  - destruct Hm as [-> | [-> | [-> | ->]]];
      dispatch; unfold case_button_up;
      cbn [Z.eqb Pos.eqb WM_LBUTTONUP WM_XBUTTONUP WM_RBUTTONUP WM_MBUTTONUP];
      step_M; reflexivity.
  - intros down [[-> ->] | [[-> ->] | [-> ->]]]; split;
      try discriminate;
      dispatch; unfold case_button_down;
      cbn [Z.eqb Pos.eqb WM_LBUTTONDOWN WM_XBUTTONDOWN WM_RBUTTONDOWN
           WM_MBUTTONDOWN];
      step_M; reflexivity.
Qed.

(** *** Wheel *)


(** *** Default handling *)

Lemma MessageHandler_default_once hwnd message wparam lparam s :
  let r := MessageHandler hwnd message wparam lparam s in
  List.filter is_DefWindowProc (called (trace_of r)) =
    (if bypasses_default message wparam then []
     else [DefWindowProc hwnd message wparam lparam])
  /\ result_of r =
       (if message =? kWmDpiChangedBeforeParent then 0
        else if bypasses_default message wparam then TRUE
        else DefWindowProc_result hwnd message wparam lparam).
Proof.
  cbv zeta. destruct s as [lead [h d wd ht [|] k n]];
    unfold bypasses_default; all_cases;
    cbn [called List.filter is_DefWindowProc app];
    first [split; reflexivity | clash].
Qed.

(** Every message but two is handed on to default handling, unchanged,
    exactly once and as the last thing the handler does, and the
    handler's answer is then the answer of default handling.  The two
    exceptions are the DPI notification, answered with zero, and the
    Unicode capability probe ([WM_UNICHAR] with [UNICODE_NOCHAR]),
    answered with [TRUE]: for them default handling is not called. *)
Theorem default_handling_is_passed_through hwnd message wparam lparam s :
  let r := MessageHandler hwnd message wparam lparam s in
  List.filter is_DefWindowProc (called (trace_of r)) =
    (if bypasses_default message wparam then []
     else [DefWindowProc hwnd message wparam lparam])
  /\ result_of r =
       (if message =? kWmDpiChangedBeforeParent then 0
        else if bypasses_default message wparam then TRUE
        else DefWindowProc_result hwnd message wparam lparam)
  /\ (if bypasses_default message wparam then True
      else List.last (trace_of r) (Emit OnFontChange) =
           Call (DefWindowProc hwnd message wparam lparam)).
Proof.
  cbv zeta.
  destruct (MessageHandler_default_once hwnd message wparam lparam s)
    as [Hc Hr]. cbv zeta in Hc, Hr.
  split; [exact Hc | split; [exact Hr |]]. clear Hc Hr.
  destruct s as [lead [h d wd ht [|] k n]];
    unfold bypasses_default; all_cases; cbn [List.last app];
    first [exact I | reflexivity | clash].
Qed.

(** A message the switch has no case for changes nothing and emits
    nothing: it is only handed on to default handling. *)
Theorem message_without_case_is_inert hwnd message wparam lparam s :
  has_case message = false ->
  MessageHandler hwnd message wparam lparam s =
  (DefWindowProc_result hwnd message wparam lparam, s,
   [Call (DefWindowProc hwnd message wparam lparam)]).
Proof.
  unfold has_case. destruct s as [lead [h d wd ht [|] k n]];
    all_cases; intros Hc; first [discriminate Hc | reflexivity].
Qed.

(** *** What a run of messages keeps *)

Lemma feed_cons hwnd message wparam lparam msgs s :
  feed hwnd ((message, wparam, lparam) :: msgs) s =
  let r := MessageHandler hwnd message wparam lparam s in
  (fst (feed hwnd msgs (state_of r)),
   trace_of r ++ snd (feed hwnd msgs (state_of r))).
Proof.
  unfold_feed. cbv zeta. destruct (feed hwnd msgs _). reflexivity.
Qed.

Lemma MessageHandler_no_lifecycle_call hwnd message wparam lparam s :
  List.filter is_lifecycle_call
    (called (trace_of (MessageHandler hwnd message wparam lparam s))) = [].
Proof.
  destruct s as [lead [h d wd ht [|] k n]]; all_cases; reflexivity.
Qed.

(** Message handling never creates, destroys, registers or unregisters
    anything, and never writes the stored handle or the class name:
    whatever messages arrive, in whatever order, the window keeps the
    handle and the class name it had. *)
Theorem messages_keep_handle_and_class hwnd msgs s :
  let run := feed hwnd msgs s in
  window_handle_ (this (fst run)) = window_handle_ (this s)
  /\ window_class_name_ (this (fst run)) = window_class_name_ (this s)
  /\ List.filter is_lifecycle_call (called (snd run)) = [].
Proof.
  cbv zeta. revert s.
  induction msgs as [| [[message wparam] lparam] msgs IH]; intros s.
  - repeat split; reflexivity.
  - rewrite feed_cons. cbv zeta. cbn [fst snd].
    destruct (IH (state_of (MessageHandler hwnd message wparam lparam s)))
      as (Hh & Hn & Hc).
    destruct (MessageHandler_keeps_handle GetDpiForHWND MapVirtualKey
                DefWindowProc_result hwnd message wparam lparam s)
      as [Hh1 Hn1].
    rewrite Hh, Hn, called_app, List.filter_app, Hc,
      MessageHandler_no_lifecycle_call.
    repeat split; assumption || reflexivity.
Qed.

Lemma MessageHandler_announces_changes hwnd message wparam lparam s :
  let r := MessageHandler hwnd message wparam lparam s in
  (current_width_ (this (state_of r)), current_height_ (this (state_of r)))
    = default (current_width_ (this s), current_height_ (this s))
        (last_resize (emitted (trace_of r)))
  /\ current_dpi_ (this (state_of r)) =
       default (current_dpi_ (this s)) (last_dpi (emitted (trace_of r))).
Proof.
  cbv zeta. destruct s as [lead [h d wd ht [|] k n]]; all_cases;
    split; reflexivity.
Qed.

(** The query surface always answers what was last announced: after any
    run of messages the stored size is the size of the most recent resize
    event of the run, and the stored DPI the value of its most recent DPI
    event; when the run announced none, they are what they were. *)
Theorem query_surface_agrees_with_last_event hwnd msgs s :
  let run := feed hwnd msgs s in
  (result_of (GetCurrentWidth (fst run)),
   result_of (GetCurrentHeight (fst run)))
    = default (current_width_ (this s), current_height_ (this s))
        (last_resize (emitted (snd run)))
  /\ result_of (GetCurrentDPI (fst run)) =
       default (current_dpi_ (this s)) (last_dpi (emitted (snd run))).
Proof.
  cbv zeta. unfold GetCurrentWidth, GetCurrentHeight, GetCurrentDPI,
    member, result_of. cbn [fst snd]. revert s.
  induction msgs as [| [[message wparam] lparam] msgs IH]; intros s.
  - split; reflexivity.
  - rewrite feed_cons. cbv zeta. cbn [fst snd].
    destruct (IH (state_of (MessageHandler hwnd message wparam lparam s)))
      as [Hsize Hdpi].
    destruct (MessageHandler_announces_changes hwnd message wparam lparam s)
      as [Hsize1 Hdpi1]. cbv zeta in Hsize1, Hdpi1.
    rewrite Hsize, Hdpi, emitted_app, last_resize_app, last_dpi_app,
      Hsize1, Hdpi1.
    split.
    + destruct (last_resize (emitted (snd (feed hwnd msgs _))));
        reflexivity.
    + destruct (last_dpi (emitted (snd (feed hwnd msgs _))));
        reflexivity.
Qed.

(** *** The pending lead surrogate *)

Lemma MessageHandler_lead_well_formed hwnd message wparam lparam s :
  lead_well_formed (lead_surrogate s) ->
  lead_well_formed
    (lead_surrogate (state_of (MessageHandler hwnd message wparam lparam s))).
Proof.
  intros Hl. destruct s as [lead [h d wd ht [|] k n]];
    cbn [lead_surrogate] in Hl; all_cases;
    first [ exact Hl
          | left; reflexivity
          | right; apply lead_test_range;
            [apply to_uint32_range | assumption] ].
Qed.

(** The pending lead surrogate is at all times either none or a genuine
    lead surrogate: nothing else is ever stored, whatever messages
    arrive. *)
Theorem pending_lead_is_none_or_a_lead hwnd msgs s :
  lead_well_formed (lead_surrogate s) ->
  lead_well_formed (lead_surrogate (fst (feed hwnd msgs s))).
Proof.
  revert s.
  induction msgs as [| [[message wparam] lparam] msgs IH]; intros s Hl.
  - exact Hl.
  - rewrite feed_cons. cbv zeta. cbn [fst].
    apply IH, MessageHandler_lead_well_formed, Hl.
Qed.

Lemma surrogate_pair_decodes lead trail :
  high_surrogate lead ->
  low_surrogate trail ->
  surrogate_pair lead trail =
    0x10000 + (lead - 0xD800) * 0x400 + (trail - 0xDC00)
  /\ lead_of (surrogate_pair lead trail) = lead
  /\ trail_of (surrogate_pair lead trail) = trail.
Proof.
  unfold high_surrogate, low_surrogate. intros Hl Ht.
  assert (Hpair : surrogate_pair lead trail =
                  0x10000 + (lead - 0xD800) * 0x400 + (trail - 0xDC00)).
  { unfold surrogate_pair. change 0x3FF with (Z.ones 10).
    rewrite !Z.land_ones, Z.shiftl_mul_pow2 by lia.
    change (2 ^ 10) with 1024.
    replace lead with ((lead - 0xD800) + 54 * 1024) at 1 by lia.
    replace trail with ((trail - 0xDC00) + 55 * 1024) at 1 by lia.
    rewrite !Z.mod_add, !Z.mod_small by lia. lia. }
  split; [exact Hpair |].
  unfold lead_of, trail_of. rewrite Hpair.
  replace (0x10000 + (lead - 0xD800) * 0x400 + (trail - 0xDC00) - 0x10000)
    with ((trail - 0xDC00) + (lead - 0xD800) * 0x400) by lia.
  rewrite Z.div_add, Z.mod_add, Z.div_small, Z.mod_small by lia.
  split; lia.
Qed.

(** When a genuine lead surrogate is pending, a plain character message
    carrying a trail surrogate is announced as exactly one character, the
    supplementary-plane code point whose UTF-16 encoding is that lead
    followed by that trail; so two different pairs are never announced
    as the same character. *)
Theorem merged_code_point_decodes_to_its_pair
    hwnd message wparam lparam s :
  message = WM_CHAR \/ message = WM_SYSCHAR ->
  high_surrogate (lead_surrogate s) ->
  low_surrogate (to_uint32 wparam) ->
  let r := MessageHandler hwnd message wparam lparam s in
  exists c,
    List.filter is_OnChar (emitted (trace_of r)) = [OnChar c]
    /\ 0x10000 <= c <= 0x10FFFF
    /\ lead_of c = lead_surrogate s
    /\ trail_of c = to_uint32 wparam.
Proof.
  intros Hm Hh Ht. cbv zeta.
  assert (Hm' : is_char_message message = true)
    by (destruct Hm as [-> | ->]; reflexivity).
  assert (Hnz : lead_surrogate s <> 0)
    by (unfold high_surrogate in Hh; lia).
  destruct (trail_surrogate_merges GetDpiForHWND MapVirtualKey
              DefWindowProc_result hwnd message wparam lparam s Hm' Hnz Ht)
    as [_ He]. cbv zeta in He.
  exists (surrogate_pair (lead_surrogate s) (to_uint32 wparam)).
  destruct (surrogate_pair_decodes _ _ Hh Ht) as (_ & Hl & Htr).
  split; [| split; [apply surrogate_pair_range | split; assumption]].
  rewrite He, List.filter_app.
  destruct Hm as [-> | ->];
    destruct (keycode_for_char_message_ (this s) =? 0); reflexivity.
Qed.

(** *** Pending key codes *)

Lemma char_message_without_pending_key hwnd message wparam lparam s :
  is_char_message message = true ->
  keycode_for_char_message_ (this s) = 0 ->
  let r := MessageHandler hwnd message wparam lparam s in
  List.filter is_OnKey (emitted (trace_of r)) = []
  /\ keycode_for_char_message_ (this (state_of r)) = 0.
Proof.
  intros Hm Hk. cbv zeta. split.
  - pose proof (key_events_of_char_message GetDpiForHWND MapVirtualKey
                  DefWindowProc_result hwnd message wparam lparam s Hm)
      as He. cbv zeta in He. rewrite He, Hk. reflexivity.
  - apply (char_message_outcome GetDpiForHWND MapVirtualKey
             DefWindowProc_result hwnd message wparam lparam s Hm).
Qed.

Lemma char_messages_without_pending_key hwnd msgs : forall s,
  all_char_messages msgs ->
  keycode_for_char_message_ (this s) = 0 ->
  List.filter is_OnKey (emitted (snd (feed hwnd msgs s))) = []
  /\ keycode_for_char_message_ (this (fst (feed hwnd msgs s))) = 0.
Proof.
  induction msgs as [| [[message wparam] lparam] msgs IH]; intros s Hall Hk.
  - split; [reflexivity | exact Hk].
  - inversion Hall as [| m ms Hm Hrest]; subst. cbn [fst snd] in Hm.
    rewrite feed_cons. cbv zeta. cbn [fst snd].
    destruct (char_message_without_pending_key hwnd message wparam lparam
                s Hm Hk) as [He1 Hk1]. cbv zeta in He1, Hk1.
    destruct (IH _ Hrest Hk1) as [He Hk'].
    rewrite emitted_app, List.filter_app, He1, He. split; [reflexivity |].
    exact Hk'.
Qed.

(** One key-down is reported at most once.  Of a run of character
    messages only the first can carry a key event, the one for the key
    code pending when the run starts; the messages after it, such as the
    second character of a composed sequence, carry none, and after the
    run no key code is pending.  A run that starts with no key code
    pending, as for text that arrives without a key press, carries no key
    event at all. *)
Theorem only_first_char_message_carries_key hwnd message wparam lparam
    msgs s :
  is_char_message message = true ->
  all_char_messages msgs ->
  let keycode := keycode_for_char_message_ (this s) in
  let run := feed hwnd ((message, wparam, lparam) :: msgs) s in
  List.filter is_OnKey (emitted (snd run)) =
    (if keycode =? 0 then []
     else [OnKey keycode (scancode_of lparam) WM_KEYDOWN
             (resolved_code_point (lead_surrogate s) wparam)])
  /\ keycode_for_char_message_ (this (fst run)) = 0.
Proof.
  intros Hm Hall. cbv zeta. rewrite feed_cons. cbv zeta. cbn [fst snd].
  pose proof (key_events_of_char_message GetDpiForHWND MapVirtualKey
                DefWindowProc_result hwnd message wparam lparam s Hm)
    as He1. cbv zeta in He1.
  assert (Hk1 : keycode_for_char_message_
                  (this (state_of
                           (MessageHandler hwnd message wparam lparam s)))
                = 0)
    by apply (char_message_outcome GetDpiForHWND MapVirtualKey
                DefWindowProc_result hwnd message wparam lparam s Hm).
  destruct (char_messages_without_pending_key hwnd msgs _ Hall Hk1)
    as [He Hk'].
  rewrite emitted_app, List.filter_app, He1, He, app_nil_r.
  split; [reflexivity | exact Hk'].
Qed.

Lemma last_cons_default {A} (l : list A) : forall a d,
  List.last (a :: l) d = List.last l a.
Proof.
  induction l as [| x l IH]; intros a d; [reflexivity |].
  change (List.last (a :: x :: l) d) with (List.last (x :: l) d).
  rewrite (IH x d), (IH x a). reflexivity.
Qed.

Lemma feed_deferred_key_downs hwnd msgs : forall s,
  all_deferred_key_downs MapVirtualKey msgs ->
  let run := feed hwnd msgs s in
  emitted (snd run) = []
  /\ lead_surrogate (fst run) = lead_surrogate s
  /\ keycode_for_char_message_ (this (fst run)) =
       List.last (map (fun m => keycode_of_wparam m.1.2) msgs)
         (keycode_for_char_message_ (this s)).
Proof.
  induction msgs as [| [[message wparam] lparam] msgs IH]; intros s Hall.
  - repeat split; reflexivity.
  - inversion Hall as [| m ms [Hm Hc] Hrest]; subst. cbn [fst snd] in Hm, Hc.
    cbv zeta. rewrite feed_cons. cbv zeta. cbn [fst snd].
    rewrite (MessageHandler_keydown_deferred GetDpiForHWND MapVirtualKey
               DefWindowProc_result hwnd message wparam lparam s Hm Hc).
    unfold state_of, trace_of. cbn [fst snd].
    destruct (IH (mkHState (lead_surrogate s)
                    (set_keycode_for_char_message_
                       (keycode_of_wparam wparam) (this s))) Hrest)
      as (He & Hl & Hk). cbv zeta in He, Hl, Hk.
    rewrite emitted_app, He, Hl, Hk.
    cbn [emitted app lead_surrogate this keycode_for_char_message_
         set_keycode_for_char_message_ map fst snd].
    repeat split; try reflexivity.
    symmetry. apply last_cons_default.
Qed.

(** A pending key code that no character message has claimed is
    silently replaced by the next key-down of a character key: of any
    run of such key-downs followed by one character message, only the
    last key-down is reported, by the one key event of the character
    message, and none of the earlier ones ever is. *)
Theorem stale_pending_key_is_overwritten hwnd keys message wparam lparam
    last_wparam last_lparam last_message s :
  all_deferred_key_downs MapVirtualKey
    (keys ++ [(last_message, last_wparam, last_lparam)]) ->
  keycode_of_wparam last_wparam <> 0 ->
  is_char_message message = true ->
  let run :=
    feed hwnd
      ((keys ++ [(last_message, last_wparam, last_lparam)])
       ++ [(message, wparam, lparam)]) s in
  List.filter is_OnKey (emitted (snd run)) =
    [OnKey (keycode_of_wparam last_wparam) (scancode_of lparam) WM_KEYDOWN
       (resolved_code_point (lead_surrogate s) wparam)]
  /\ keycode_for_char_message_ (this (fst run)) = 0.
Proof.
  intros Hkeys Hlast Hm. cbv zeta.
  rewrite (feed_app GetDpiForHWND MapVirtualKey DefWindowProc_result).
  destruct (feed_deferred_key_downs hwnd _ s Hkeys) as (He & Hl & Hk).
  cbv zeta in He, Hl, Hk.
  rewrite List.map_app in Hk. cbn [map] in Hk.
  rewrite List.last_last in Hk. cbn [fst snd] in Hk.
  set (s1 := fst (feed hwnd
                    (keys ++ [(last_message, last_wparam, last_lparam)]) s))
    in *.
  cbn [fst snd]. rewrite feed_cons. cbv zeta. cbn [feed fst snd].
  rewrite app_nil_r, emitted_app, He. cbn [app].
  pose proof (key_events_of_char_message GetDpiForHWND MapVirtualKey
                DefWindowProc_result hwnd message wparam lparam s1 Hm)
    as Hkey. cbv zeta in Hkey. rewrite Hk, Hl in Hkey.
  apply Z.eqb_neq in Hlast. rewrite Hlast in Hkey.
  split; [exact Hkey |].
  apply (char_message_outcome GetDpiForHWND MapVirtualKey
           DefWindowProc_result hwnd message wparam lparam s1 Hm).
Qed.

(** A key-up (or system-key-up) is reported at once by exactly one key
    event with the key-up action and no character, also for a key that
    maps to a character: it is never deferred, records nothing and leaves
    a pending key code in place.  The scancode is bits 16 to 23 of
    [lparam]; for shift, control and alt the key code reported is what
    the key-mapping service answers for that scancode. *)
Theorem key_up_is_reported_at_once hwnd message wparam lparam s :
  message = WM_KEYUP \/ message = WM_SYSKEYUP ->
  let r := MessageHandler hwnd message wparam lparam s in
  let scancode := (lparam / 2 ^ 16) mod 2 ^ 8 in
  let key := to_uint32 wparam in
  emitted (trace_of r) =
    [OnKey (if (key =? VK_SHIFT) || (key =? VK_MENU) || (key =? VK_CONTROL)
            then to_uint32 (MapVirtualKey scancode MAPVK_VSC_TO_VK_EX)
            else key)
       scancode WM_KEYUP 0]
  /\ state_of r = s.
Proof.
  intros Hm. cbv zeta.
  rewrite (MessageHandler_keyup GetDpiForHWND MapVirtualKey
             DefWindowProc_result hwnd message wparam lparam s Hm).
  assert (Hsc : scancode_of lparam = (lparam / 2 ^ 16) mod 2 ^ 8).
  { unfold scancode_of. change 0xff with (Z.ones 8).
    rewrite Z.land_ones, Z.shiftr_div_pow2 by lia. reflexivity. }
  unfold key_code_of. cbv zeta. rewrite Hsc. split; reflexivity.
Qed.

(** *** Messages that are not text *)

Lemma MessageHandler_keeps_text_state hwnd message wparam lparam s :
  is_char_message message = false ->
  is_key_message message = false ->
  let r := MessageHandler hwnd message wparam lparam s in
  lead_surrogate (state_of r) = lead_surrogate s
  /\ keycode_for_char_message_ (this (state_of r)) =
       keycode_for_char_message_ (this s)
  /\ List.filter is_text_event (emitted (trace_of r)) = [].
Proof.
  unfold is_char_message, is_key_message. cbv zeta.
  destruct s as [lead [h d wd ht [|] k n]]; all_cases; intros Hc Hk;
    first [discriminate Hc | discriminate Hk | repeat split; reflexivity].
Qed.

(** Pointer, size, DPI and all other messages that are neither character
    messages nor raw key transitions leave the text state alone: however
    many of them arrive between a key-down and its character message, or
    between the two halves of a surrogate pair, the pending key code and
    the pending lead surrogate are still there afterwards, and none of
    them emits a character or key event. *)
Theorem other_messages_keep_text_state hwnd msgs : forall s,
  no_text_message msgs ->
  let run := feed hwnd msgs s in
  lead_surrogate (fst run) = lead_surrogate s
  /\ keycode_for_char_message_ (this (fst run)) =
       keycode_for_char_message_ (this s)
  /\ List.filter is_text_event (emitted (snd run)) = [].
Proof.
  induction msgs as [| [[message wparam] lparam] msgs IH]; intros s Hall.
  - repeat split; reflexivity.
  - inversion Hall as [| m ms [Hc Hk] Hrest]; subst.
    cbn [fst snd] in Hc, Hk. cbv zeta.
    rewrite feed_cons. cbv zeta. cbn [fst snd].
    destruct (MessageHandler_keeps_text_state hwnd message wparam lparam s
                Hc Hk) as (Hl1 & Hk1 & He1).
    destruct (IH (state_of (MessageHandler hwnd message wparam lparam s))
                Hrest) as (Hl & Hk' & He).
    cbv zeta in Hl, Hk', He.
    rewrite Hl, Hk', emitted_app, List.filter_app, He1, He.
    repeat split; assumption || reflexivity.
Qed.

End MoreHandlerFacts.

(** ** Further properties of the process *)

Section MoreProcessFacts.

Variable GetDpiForHWND : Z -> Z.
Variable MapVirtualKey : Z -> Z -> Z.
Variable DefWindowProc_result : Z -> Z -> Z -> Z -> Z.
Variable NarrowToWide : string -> string.

Local Abbreviation MessageHandler :=
  (MessageHandler GetDpiForHWND MapVirtualKey DefWindowProc_result).
Local Abbreviation feed :=
  (feed GetDpiForHWND MapVirtualKey DefWindowProc_result).
Local Abbreviation WndProc :=
  (WndProc GetDpiForHWND MapVirtualKey DefWindowProc_result).
Local Abbreviation deliver :=
  (deliver GetDpiForHWND MapVirtualKey DefWindowProc_result).
Local Abbreviation InitializeChild :=
  (InitializeChild GetDpiForHWND MapVirtualKey DefWindowProc_result
     NarrowToWide).

(** *** The association of a handle with its window *)


(** *** Delivery to one window *)

(** Delivering messages to the handle of a live window is feeding them
    to the handler of the object that owns the handle: the process ends
    with that object as the handler left it and with the shared lead
    surrogate as the handler left it, and with every slot and every
    other object as they were. *)
Theorem delivery_runs_the_owner_only window msgs : forall σ p w,
  no_creation_message msgs ->
  userdata σ !! window = Some p ->
  p <> 0 ->
  objects σ !! p = Some w ->
  let run := feed window msgs (mkHState (static_lead_surrogate σ) w) in
  deliver window msgs σ =
  Some (tt,
        mkWorld (lead_surrogate (fst run)) (userdata σ)
          (<[p := this (fst run)]> (objects σ)),
        snd run).
Proof.
  induction msgs as [| [[message wparam] lparam] msgs IH];
    intros σ p w Hmsgs Hu Hp Ho; cbv zeta.
  - unfold_feed. cbn [fst snd lead_surrogate this].
    rewrite (insert_id _ _ _ Ho). destruct σ. reflexivity.
  - inversion Hmsgs as [| m ms Hm Hrest]; subst. cbn [fst snd] in Hm.
    unfold_deliver. step_W.
    rewrite (WndProc_dispatch GetDpiForHWND MapVirtualKey
               DefWindowProc_result _ _ _ _ _ _ _ _ Hm Hu Hp Ho).
    cbv zeta. step_W.
    set (r := MessageHandler window message wparam lparam _).
    rewrite (IH (mkWorld (lead_surrogate (state_of r)) (userdata σ)
                   (<[p := this (state_of r)]> (objects σ)))
               p (this (state_of r)) Hrest Hu Hp)
      by (cbn [objects]; apply lookup_insert_eq).
    cbv zeta. cbn [static_lead_surrogate userdata objects].
    rewrite insert_insert_eq. unfold_feed. fold r.
    replace (mkHState (lead_surrogate (state_of r)) (this (state_of r)))
      with (state_of r) by (destruct (state_of r); reflexivity).
    destruct (feed window msgs (state_of r)) as [s' t'].
    cbn [fst snd]. reflexivity.
Qed.

(** *** Creation and tear-down pair up *)


End MoreProcessFacts.

(** ** Instances of the further statements *)

(** The pointer two pixels left of and one above the client area. *)
Lemma pointer_position_round_trip_witness :
  - 2 ^ 15 <= -2 < 2 ^ 15
  /\ - 2 ^ 15 <= -1 < 2 ^ 15
  /\ emitted (trace_of (sample_MessageHandler 7 WM_MOUSEMOVE 0
                          (packed (-2) (-1) 0)
                          (mkHState 0 (sample_window 7 "A"))))
     = [OnPointerMove (-2) (-1)].
Proof.
  assert (Hx : - 2 ^ 15 <= -2 < 2 ^ 15) by lia.
  assert (Hy : - 2 ^ 15 <= -1 < 2 ^ 15) by lia.
  split; [exact Hx | split; [exact Hy |]].
  exact (proj1 (pointer_position_round_trip
                  sample_GetDpiForHWND sample_MapVirtualKey
                  sample_DefWindowProc_result 7 0 (-2) (-1) 0
                  (mkHState 0 (sample_window 7 "A")) Hx Hy)).
Defined.

(** The left button pressed at (100, 50). *)
Lemma button_down_captures_left_only_witness :
  let r := sample_MessageHandler 7 WM_LBUTTONDOWN 1 (packed 100 50 0)
             (mkHState 0 (sample_window 7 "A")) in
  (WM_LBUTTONDOWN = WM_LBUTTONDOWN \/ WM_LBUTTONDOWN = WM_RBUTTONDOWN
   \/ WM_LBUTTONDOWN = WM_MBUTTONDOWN \/ WM_LBUTTONDOWN = WM_XBUTTONDOWN)
  /\ List.filter is_capture_call (called (trace_of r)) = [SetCapture 7]
  /\ state_of r = mkHState 0 (sample_window 7 "A").
Proof.
  cbv zeta.
  pose proof (button_down_captures_left_only
                sample_GetDpiForHWND sample_MapVirtualKey
                sample_DefWindowProc_result 7 WM_LBUTTONDOWN 1
                (packed 100 50 0) (mkHState 0 (sample_window 7 "A"))
                (or_introl eq_refl)) as H.
  cbv zeta in H. destruct H as (_ & Hc & Hs).
  split; [left; reflexivity | split; [exact Hc | exact Hs]].
Defined.

(** The left button released at (100, 50). *)
Lemma button_up_releases_left_only_witness :
  let r := sample_MessageHandler 7 WM_LBUTTONUP 0 (packed 100 50 0)
             (mkHState 0 (sample_window 7 "A")) in
  (WM_LBUTTONUP = WM_LBUTTONUP \/ WM_LBUTTONUP = WM_RBUTTONUP
   \/ WM_LBUTTONUP = WM_MBUTTONUP \/ WM_LBUTTONUP = WM_XBUTTONUP)
  /\ List.filter is_capture_call (called (trace_of r)) = [ReleaseCapture]
  /\ state_of r = mkHState 0 (sample_window 7 "A").
Proof.
  cbv zeta.
  pose proof (button_up_releases_left_only
                sample_GetDpiForHWND sample_MapVirtualKey
                sample_DefWindowProc_result 7 WM_LBUTTONUP 0
                (packed 100 50 0) (mkHState 0 (sample_window 7 "A"))
                (or_introl eq_refl)) as H.
  cbv zeta in H. destruct H as (_ & Hc & Hs & _).
  split; [left; reflexivity | split; [exact Hc | exact Hs]].
Defined.


(** The paint message, for which the switch has no case. *)
Lemma message_without_case_is_inert_witness :
  has_case 0x000F = false
  /\ sample_MessageHandler 7 0x000F 0 0 (mkHState 0 (sample_window 7 "A"))
     = (0, mkHState 0 (sample_window 7 "A"),
        [Call (DefWindowProc 7 0x000F 0 0)]).
Proof.
  split; [reflexivity |].
  exact (message_without_case_is_inert
           sample_GetDpiForHWND sample_MapVirtualKey
           sample_DefWindowProc_result 7 0x000F 0 0
           (mkHState 0 (sample_window 7 "A")) eq_refl).
Defined.

(** A lead surrogate, a size message and a trail surrogate, starting
    with none pending. *)
Lemma pending_lead_is_none_or_a_lead_witness :
  lead_well_formed 0
  /\ lead_well_formed
       (lead_surrogate
          (fst (sample_feed 7
                  [(WM_CHAR, 0xD83D, 0); (WM_SIZE, 0, 0x02580320)]
                  (mkHState 0 (sample_window 7 "A"))))).
Proof.
  assert (H0 : lead_well_formed 0) by (left; reflexivity).
  split; [exact H0 |].
  exact (pending_lead_is_none_or_a_lead
           sample_GetDpiForHWND sample_MapVirtualKey
           sample_DefWindowProc_result 7
           [(WM_CHAR, 0xD83D, 0); (WM_SIZE, 0, 0x02580320)]
           (mkHState 0 (sample_window 7 "A")) H0).
Defined.

(** The trail U+DE00 while the lead U+D83D is pending. *)
Lemma merged_code_point_decodes_to_its_pair_witness :
  high_surrogate 0xD83D
  /\ low_surrogate (to_uint32 0xDE00)
  /\ exists c,
       List.filter is_OnChar
         (emitted (trace_of (sample_MessageHandler 7 WM_CHAR 0xDE00 0
                               (mkHState 0xD83D (sample_window 7 "A")))))
       = [OnChar c]
       /\ 0x10000 <= c <= 0x10FFFF
       /\ lead_of c = 0xD83D
       /\ trail_of c = to_uint32 0xDE00.
Proof.
  assert (Hh : high_surrogate 0xD83D) by (unfold high_surrogate; lia).
  assert (Hl : low_surrogate (to_uint32 0xDE00))
    by (change (to_uint32 0xDE00) with 0xDE00; unfold low_surrogate; lia).
  split; [exact Hh | split; [exact Hl |]].
  exact (merged_code_point_decodes_to_its_pair
           sample_GetDpiForHWND sample_MapVirtualKey
           sample_DefWindowProc_result 7 WM_CHAR 0xDE00 0
           (mkHState 0xD83D (sample_window 7 "A"))
           (or_introl eq_refl) Hh Hl).
Defined.

(** A dead key and the character composed with it, after the key-down
    of the letter. *)
Lemma only_first_char_message_carries_key_witness :
  let pressed :=
    mkHState 0 (set_keycode_for_char_message_ 0x45 (sample_window 7 "A")) in
  is_char_message WM_CHAR = true
  /\ all_char_messages [(WM_CHAR, 0x65, 0x120000)]
  /\ List.filter is_OnKey
       (emitted (snd (sample_feed 7
                        [(WM_CHAR, 0x27, 0x120000);
                         (WM_CHAR, 0x65, 0x120000)] pressed)))
     = [OnKey 0x45 0x12 WM_KEYDOWN 0x27].
Proof.
  cbv zeta.
  assert (Hall : all_char_messages [(WM_CHAR, 0x65, 0x120000)])
    by (repeat constructor).
  split; [reflexivity | split; [exact Hall |]].
  exact (proj1 (only_first_char_message_carries_key
                  sample_GetDpiForHWND sample_MapVirtualKey
                  sample_DefWindowProc_result 7 WM_CHAR 0x27 0x120000
                  [(WM_CHAR, 0x65, 0x120000)]
                  (mkHState 0 (set_keycode_for_char_message_ 0x45
                                 (sample_window 7 "A")))
                  eq_refl Hall)).
Defined.

(** The key [A] pressed, abandoned, then [B] pressed and typed. *)
Lemma stale_pending_key_is_overwritten_witness :
  all_deferred_key_downs sample_MapVirtualKey
    ([(WM_KEYDOWN, 0x41, 0x1E0000)] ++ [(WM_KEYDOWN, 0x42, 0x300000)])
  /\ keycode_of_wparam 0x42 <> 0
  /\ List.filter is_OnKey
       (emitted (snd (sample_feed 7
                        (([(WM_KEYDOWN, 0x41, 0x1E0000)]
                          ++ [(WM_KEYDOWN, 0x42, 0x300000)])
                         ++ [(WM_CHAR, 0x62, 0x300000)])
                        (mkHState 0 (sample_window 7 "A")))))
     = [OnKey 0x42 0x30 WM_KEYDOWN 0x62].
Proof.
  assert (Hkeys : all_deferred_key_downs sample_MapVirtualKey
                    ([(WM_KEYDOWN, 0x41, 0x1E0000)]
                     ++ [(WM_KEYDOWN, 0x42, 0x300000)])).
  { repeat constructor. }
  assert (Hk : keycode_of_wparam 0x42 <> 0) by discriminate.
  split; [exact Hkeys | split; [exact Hk |]].
  exact (proj1 (stale_pending_key_is_overwritten
                  sample_GetDpiForHWND sample_MapVirtualKey
                  sample_DefWindowProc_result 7
                  [(WM_KEYDOWN, 0x41, 0x1E0000)] WM_CHAR 0x62 0x300000
                  0x42 0x300000 WM_KEYDOWN
                  (mkHState 0 (sample_window 7 "A")) Hkeys Hk eq_refl)).
Defined.

(** The left shift key released. *)
Lemma key_up_is_reported_at_once_witness :
  (WM_KEYUP = WM_KEYUP \/ WM_KEYUP = WM_SYSKEYUP)
  /\ emitted (trace_of (sample_MessageHandler 7 WM_KEYUP 0x10 0xC02A0001
                          (mkHState 0 (sample_window 7 "A"))))
     = [OnKey 0xA0 0x2A WM_KEYUP 0].
Proof.
  split; [left; reflexivity |].
  exact (proj1 (key_up_is_reported_at_once
                  sample_GetDpiForHWND sample_MapVirtualKey
                  sample_DefWindowProc_result 7 WM_KEYUP 0x10 0xC02A0001
                  (mkHState 0 (sample_window 7 "A")) (or_introl eq_refl))).
Defined.

(** Pointer moves and a size message between a key-down and its
    character. *)
Lemma other_messages_keep_text_state_witness :
  let pressed :=
    mkHState 0xD83D
      (set_keycode_for_char_message_ 0x41 (sample_window 7 "A")) in
  let msgs := [(WM_MOUSEMOVE, 0, 0x00050003); (WM_SIZE, 0, 0x02580320)] in
  no_text_message msgs
  /\ lead_surrogate (fst (sample_feed 7 msgs pressed)) = 0xD83D
  /\ keycode_for_char_message_ (this (fst (sample_feed 7 msgs pressed)))
     = 0x41.
Proof.
  cbv zeta.
  assert (Hall : no_text_message
                   [(WM_MOUSEMOVE, 0, 0x00050003); (WM_SIZE, 0, 0x02580320)])
    by (repeat constructor).
  split; [exact Hall |].
  destruct (other_messages_keep_text_state
              sample_GetDpiForHWND sample_MapVirtualKey
              sample_DefWindowProc_result 7 _
              (mkHState 0xD83D
                 (set_keycode_for_char_message_ 0x41 (sample_window 7 "A")))
              Hall) as (Hl & Hk & _).
  split; [exact Hl | exact Hk].
Defined.


(** A move and a size message delivered to the first of two windows. *)
Lemma delivery_runs_the_owner_only_witness :
  let msgs := [(WM_MOUSEMOVE, 0, 0x00050003); (WM_SIZE, 0, 0x02580320)] in
  no_creation_message msgs
  /\ userdata two_windows !! 11 = Some 1000
  /\ objects two_windows !! 1000 = Some (sample_window 11 "A")
  /\ objects (world_after
                (deliver sample_GetDpiForHWND sample_MapVirtualKey
                   sample_DefWindowProc_result 11 msgs) two_windows)
       !! 2000 = Some (sample_window 22 "B").
Proof.
  cbv zeta.
  assert (Hm : no_creation_message
                 [(WM_MOUSEMOVE, 0, 0x00050003); (WM_SIZE, 0, 0x02580320)])
    by (repeat constructor; discriminate).
  assert (Hu : userdata two_windows !! 11 = Some 1000) by reflexivity.
  assert (Ho : objects two_windows !! 1000 = Some (sample_window 11 "A"))
    by reflexivity.
  split; [exact Hm | split; [exact Hu | split; [exact Ho |]]].
  unfold world_after.
  rewrite (delivery_runs_the_owner_only
             sample_GetDpiForHWND sample_MapVirtualKey
             sample_DefWindowProc_result 11 _ two_windows 1000
             (sample_window 11 "A") Hm Hu ltac:(discriminate) Ho).
  cbv zeta. cbn [objects]. rewrite lookup_insert_ne by discriminate.
  reflexivity.
Defined.

